(** * aptos-web3.js: the wallet client, its REST helper and the hex codec

  A shallow embedding of [wallet_client.ts] ([RestClient], [WalletClient])
  and of the [HexString] wrapper exercised by [hex_string.test.js].

  Asynchronous methods are computations in a small monad that threads the
  list of calls made so far into the collaborators (bip39, tweetnacl,
  the faucet, the node's REST endpoints, [TokenClient], [AptosClient]) and
  either resolves with a value or rejects with a JavaScript value. *)

From Stdlib Require Import String Ascii List ZArith NArith Bool Lia.
From Stdlib Require Import Permutation DecimalString DecimalZ.
From Stdlib Require Init.Byte Strings.Byte.
Import ListNotations.

Set Warnings "-register-all".

Local Open Scope string_scope.
Local Open Scope list_scope.

Abbreviation byte := Init.Byte.byte.

(** ** JavaScript values *)

Module Js.

(** Object literals, arrays and primitives as the client builds and
    receives them. *)
Inductive JsValue : Type :=
| JsUndefined
| JsBool (b : bool)
| JsNumber (n : Z)
| JsString (s : string)
| JsArray (items : list JsValue)
| JsObject (fields : list (string * JsValue)).

(** [n.toString()] for an integer-valued number: the decimal digits, with
    a leading minus sign below zero.  JavaScript prints an integer this way
    as long as its magnitude is below 10^21; [MAX_SAFE_INTEGER] bounds the
    integers a [number] holds exactly. *)
Definition Number_toString (n : Z) : string :=
  NilZero.string_of_int (Z.to_int n).

Definition MAX_SAFE_INTEGER : Z := 2 ^ 53 - 1.

(** Reading a decimal integer literal back. *)
Definition parseDecimal (s : string) : option Z :=
  option_map Z.of_int (NilZero.int_of_string s).

Definition isDigit (c : ascii) : bool :=
  let n := nat_of_ascii c in (48 <=? n)%nat && (n <=? 57)%nat.

Fixpoint allChars (p : ascii -> bool) (s : string) : bool :=
  match s with
  | EmptyString => true
  | String c rest => p c && allChars p rest
  end.

(** [s.startsWith(p)] *)
Fixpoint startsWith (s p : string) {struct p} : bool :=
  match p, s with
  | EmptyString, _ => true
  | String _ _, EmptyString => false
  | String c p', String d s' => Ascii.eqb d c && startsWith s' p'
  end.

(** [s.slice(n)] for 0 <= n *)
Fixpoint slice (n : nat) (s : string) : string :=
  match n, s with
  | O, _ => s
  | S _, EmptyString => EmptyString
  | S m, String _ rest => slice m rest
  end.

(** Array helpers named after the methods the client calls. *)
Definition push {A : Type} (arr : list A) (x : A) : list A := arr ++ [x].

Definition some {A : Type} (arr : list A) (p : A -> bool) : bool :=
  existsb p arr.

(** [for (var elem of xs) body], the loop state passed along. *)
Definition for_of {A S : Type} (xs : list A) (body : S -> A -> S) (init : S) : S :=
  fold_left body xs init.

End Js.
Import Js.

(** ** HexString *)

Module Hex.

(** The digit of a value below 16: [0-9] and then [a-f]. *)
Definition hexDigit (n : N) : ascii :=
  ascii_of_N (if (n <? 10)%N then 48 + n else 87 + n).

(** The value of a hex digit of either case, by its character code. *)
Definition hexValue (c : ascii) : option N :=
  let code := N_of_ascii c in
  if ((48 <=? code) && (code <=? 57))%N then Some (code - 48)%N
  else if ((97 <=? code) && (code <=? 102))%N then Some (code - 87)%N
  else if ((65 <=? code) && (code <=? 70))%N then Some (code - 55)%N
  else None.

Definition isLowerHexDigit (c : ascii) : bool :=
  match hexValue c with
  | Some n => Ascii.eqb (hexDigit n) c
  | None => false
  end.

(** [buffer.toString("hex")]: two lowercase digits per byte. *)
Fixpoint bufferToHex (buffer : list byte) : string :=
  match buffer with
  | [] => EmptyString
  | b :: rest =>
      let n := Strings.Byte.to_N b in
      String (hexDigit (n / 16)) (String (hexDigit (n mod 16)) (bufferToHex rest))
  end.

(** Modelled from the spec: [hex_string.ts] is not among the sources, only
    its tests are.  Decoding of hex text into a byte buffer, the direction
    of the HexCodec from text to bytes; the spec defines it on hex text
    only, and text that is not an even number of hex digits has no buffer
    here. *)
Fixpoint hexToBuffer (text : string) : option (list byte) :=
  match text with
  | EmptyString => Some []
  | String _ EmptyString => None
  | String hi (String lo rest) =>
      match hexValue hi, hexValue lo, hexToBuffer rest with
      | Some h, Some l, Some bytes =>
          match Strings.Byte.of_N (h * 16 + l) with
          | Some b => Some (b :: bytes)
          | None => None
          end
      | _, _, _ => None
      end
  end.

(** Modelled from the spec: [hex_string.ts] is not among the sources.  The
    wrapper HexString of the data model, with the two textual forms its
    tests exercise. *)
Record HexString : Type := mkHexString { hexString : string }.

(** Modelled from the spec: the constructor of the missing [hex_string.ts];
    it accepts text with or without the [0x] prefix and stores the prefixed
    form, as the tests "accepts input with/without prefix" expect. *)
Definition new (text : string) : HexString :=
  if startsWith text "0x" then mkHexString text
  else mkHexString ("0x" ++ text).

(** Modelled from the spec: [HexString.ensure] of the missing
    [hex_string.ts], on a string argument. *)
Definition ensure (text : string) : HexString := new text.

(** Modelled from the spec: [hex()] of the missing [hex_string.ts], the
    prefixed text. *)
Definition hex (h : HexString) : string := hexString h.

(** Modelled from the spec: [toString()] of the missing [hex_string.ts];
    the tests expect it to equal [hex()]. *)
Definition toString (h : HexString) : string := hex h.

(** Modelled from the spec: [noPrefix()] of the missing [hex_string.ts]. *)
Definition noPrefix (h : HexString) : string := slice 2 (hexString h).

(** Modelled from the spec: [HexString.fromBuffer] of the missing
    [hex_string.ts]. *)
Definition fromBuffer (buffer : list byte) : HexString :=
  new (bufferToHex buffer).

(** Modelled from the spec: [toBuffer()] of the missing [hex_string.ts]. *)
Definition toBuffer (h : HexString) : option (list byte) :=
  hexToBuffer (noPrefix h).

Fixpoint dropZeros (s : string) : string :=
  match s with
  | String "0" rest => dropZeros rest
  | _ => s
  end.

(** Modelled from the spec: [toShortString()] of the missing
    [hex_string.ts], the canonical short form: leading zeros after the
    prefix are dropped. *)
Definition toShortString (h : HexString) : string :=
  "0x" ++ dropZeros (noPrefix h).

(** Modelled from the spec: the codec of section 2 (HexCodec), bytes to
    canonical text. *)
Definition toHex (buffer : list byte) : string := hex (fromBuffer buffer).

(** Modelled from the spec: the codec of section 2 (HexCodec), text in
    either form to bytes. *)
Definition fromHex (text : string) : option (list byte) := toBuffer (new text).

End Hex.

(** ** Calls into collaborators, and the monad of asynchronous methods *)

Module Async.

Import Hex.

(** [nacl.sign.keyPair]: the pair tweetnacl builds from a seed. *)
Record KeyPair : Type := mkKeyPair {
  publicKey : list byte;
  secretKey : list byte
}.

(** Modelled from the spec: [aptos_account.ts] is not among the sources.
    The Account of the data model: the signing key pair and the address
    under which the account is looked up on chain. *)
Record AptosAccount : Type := mkAptosAccount {
  signingKey : KeyPair;
  accountAddress : HexString
}.

(** [export interface TokenId] *)
Record TokenId : Type := mkTokenId {
  creator : string;
  collectionName : string;
  name : string
}.

(** The [data] of a token deposit or withdrawal event; the node renders
    the u64 amount as text. *)
Record EventData : Type := mkEventData {
  id : TokenId;
  amount : string
}.

(** An event as the node's REST endpoint returns it. *)
Record Event : Type := mkEvent {
  sequence_number : string;
  data : EventData
}.

(** What [fetch] resolves with.  [next_cursor] is the cursor of the
    collaborator's [getEventPage] (spec, section 6), present when more
    events follow the page in [body]; the body is the event array the
    endpoint is typed to return. *)
Record Response : Type := mkResponse {
  status : Z;
  next_cursor : option string;
  body : list Event
}.

(** One call that leaves the wallet client. *)
Inductive Effect : Type :=
| EGenerateMnemonic
| EMnemonicToSeed (code : string)
| EKeyPairFromSeed (seed : list byte)
| EFundAccount (authKey : HexString) (amount : Z)
| EFetch (url : string)
| EConsoleLog (message : string)
| EGenerateTransaction (sender : HexString) (payload : JsValue)
| ESignTransaction (account : AptosAccount) (txnRequest : JsValue)
| ESubmitTransaction (account : AptosAccount) (signedTxn : JsValue)
| EWaitForTransaction (txnHash : string)
| ECreateCollection (account : AptosAccount) (name description uri : string)
| ECreateToken (account : AptosAccount) (collection_name name description : string)
    (supply : Z) (uri : string)
| EOfferToken (account : AptosAccount)
    (receiver creator collection_name token_name : string) (amount : Z)
| EGetTokenId (creator collection_name token_name : string)
| ECancelTokenOffer (account : AptosAccount) (receiver creator : string)
    (token_id : JsValue)
| EClaimToken (account : AptosAccount)
    (sender creator collection_name token_name : string)
| ESubmitTransactionHelper (account : AptosAccount) (payload : JsValue).

Definition Trace : Type := list Effect.

(** A settled promise. *)
Inductive Outcome (A : Type) : Type :=
| Resolved (value : A)
| Rejected (reason : JsValue).

Arguments Resolved {A} value.
Arguments Rejected {A} reason.

(** The collaborators.  Pure library functions answer from their argument;
    the network, the faucet and the random generator answer from the calls
    made so far as well. *)
Record Env : Type := mkEnv {
  nodeUrl : string;
  validateMnemonic : string -> bool;
  generateMnemonic : Trace -> string;
  mnemonicToSeedSync : string -> list byte;
  keyPair_fromSeed : list byte -> KeyPair;
  sha3_256 : list byte -> list byte;
  fetch : Trace -> string -> Outcome Response;
  (* resolves with the [hash] of the pending transaction *)
  submitTransaction : Trace -> AptosAccount -> JsValue -> Outcome string;
  collaborator : Trace -> Effect -> Outcome JsValue
}.

(** An asynchronous method: from the calls made so far to its outcome and
    the calls made by the time it settles. *)
Definition Async (A : Type) : Type := Trace -> Outcome A * Trace.

Definition resolve {A : Type} (value : A) : Async A :=
  fun t => (Resolved value, t).

Definition reject {A : Type} (reason : JsValue) : Async A :=
  fun t => (Rejected reason, t).

(** [await m] followed by the rest of the method. *)
Definition bind {A B : Type} (m : Async A) (k : A -> Async B) : Async B :=
  fun t =>
    match m t with
    | (Resolved value, t') => k value t'
    | (Rejected reason, t') => (Rejected reason, t')
    end.

(** [m.then(k)] *)
Definition then_ {A B : Type} (m : Async A) (k : A -> Async B) : Async B :=
  bind m k.

(** [m.catch(handler)] *)
Definition catch {A : Type} (m : Async A) (handler : JsValue -> Async A) : Async A :=
  fun t =>
    match m t with
    | (Resolved value, t') => (Resolved value, t')
    | (Rejected reason, t') => handler reason t'
    end.

(** A call into a collaborator: it is recorded, and settles as the
    collaborator answers. *)
Definition perform {A : Type} (e : Effect) (answer : Trace -> Outcome A) : Async A :=
  fun t => (answer t, t ++ [e]).

End Async.

Declare Scope async_scope.
Delimit Scope async_scope with async.
Notation "x <- m ;; k" := (Async.bind m (fun x => k))
  (at level 61, m at next level, right associativity) : async_scope.
Notation "m ;;; k" := (Async.bind m (fun _ => k))
  (at level 61, right associativity) : async_scope.

(** ** The clients *)

Module Wallet.

Import Hex Async.
Local Open Scope async_scope.

Section Clients.

Variable env : Env.

(** A call whose answer the client treats as an opaque value. *)
Definition call (e : Effect) : Async JsValue :=
  perform e (fun t => collaborator env t e).

(** *** AptosAccount *)

(** Modelled from the spec: [authKey()] of the missing [aptos_account.ts],
    sha3-256 of the public key followed by the single-signature scheme
    byte. *)
Definition authKeyOf (keys : KeyPair) : HexString :=
  fromBuffer (sha3_256 env (publicKey keys ++ [Init.Byte.x00])).

(** Modelled from the spec: [authKey()] of the missing [aptos_account.ts]. *)
Definition authKey (account : AptosAccount) : HexString :=
  authKeyOf (signingKey account).

(** Modelled from the spec: [address()] of the missing [aptos_account.ts]. *)
Definition address (account : AptosAccount) : HexString :=
  accountAddress account.

(** Modelled from the spec: the constructor of the missing
    [aptos_account.ts].  The key pair comes from the seed bytes handed in;
    the address is the one supplied, or else the authentication key. *)
Definition AptosAccount_new (privateKeyBytes : list byte) (address : option string)
  : Async AptosAccount :=
  keys <- perform (EKeyPairFromSeed privateKeyBytes)
            (fun _ => Resolved (keyPair_fromSeed env privateKeyBytes)) ;;
  resolve (mkAptosAccount keys
             (match address with
              | Some a => ensure a
              | None => authKeyOf keys
              end)).

(** A [HexString] held in a field of an object literal. *)
Definition HexString_value (h : HexString) : JsValue :=
  JsObject [ ("hexString", JsString (hexString h)) ].

(** *** RestClient *)

Definition RestClient_waitForTransaction (txnHash : string) : Async JsValue :=
  call (EWaitForTransaction txnHash).

(** The object literal [payload] of [RestClient.transfer]. *)
Definition transferPayload (recipient : string) (amount : Z) : JsValue :=
  JsObject
    [ ("type", JsString "script_function_payload");
      ("function", JsString "0x1::TestCoin::transfer");
      ("type_arguments", JsArray []);
      ("arguments",
        JsArray [ JsString (toString (ensure recipient));
                  JsString (Number_toString amount) ]) ].

Definition RestClient_transfer (accountFrom : AptosAccount) (recipient : string)
  (amount : Z) : Async string :=
  let payload := transferPayload recipient amount in
  txnRequest <- call (EGenerateTransaction (address accountFrom) payload) ;;
  signedTxn <- call (ESignTransaction accountFrom txnRequest) ;;
  res <- perform (ESubmitTransaction accountFrom signedTxn)
           (fun t => submitTransaction env t accountFrom signedTxn) ;;
  resolve res.

(** *** WalletClient *)

Definition getAccountFromMnemonic (code : string) (address : option string)
  : Async AptosAccount :=
  if negb (validateMnemonic env code) then
    reject (JsString "Incorrect mnemonic passed")
  else
    seed <- perform (EMnemonicToSeed code)
              (fun _ => Resolved (mnemonicToSeedSync env code)) ;;
    account <- AptosAccount_new (firstn 32 seed) address ;;
    resolve account.

(** [getAccountFromMnemonic(...).catch((msg) => Promise.reject(msg))], the
    first statement of every method that takes a mnemonic. *)
Definition accountOrReject (code : string) (address : option string)
  : Async AptosAccount :=
  catch (getAccountFromMnemonic code address) (fun msg => reject msg).

Definition bip39_generateMnemonic : Async string :=
  perform EGenerateMnemonic (fun t => Resolved (generateMnemonic env t)).

Definition createWallet : Async JsValue :=
  code <- bip39_generateMnemonic ;;
  account <- accountOrReject code None ;;
  call (EFundAccount (authKey account) 10) ;;;
  resolve (JsObject
             [ ("code", JsString code);
               ("address key", JsString (noPrefix (address account))) ]).

Definition getUninitializedAccount : Async JsValue :=
  code <- bip39_generateMnemonic ;;
  account <- accountOrReject code None ;;
  resolve (JsObject
             [ ("code", JsString code);
               ("auth_key", HexString_value (authKey account));
               ("address key", JsString (noPrefix (address account))) ]).

Definition importWallet (code : string) (address_ : option string) : Async JsValue :=
  account <- accountOrReject code address_ ;;
  call (EFundAccount (authKey account) 10) ;;;
  resolve (JsObject
             [ ("auth_key", HexString_value (authKey account));
               ("address key", JsString (noPrefix (address account))) ]).

Definition transfer (code recipient_address : string) (amount : Z)
  (sender_address : option string) : Async JsValue :=
  account <- accountOrReject code sender_address ;;
  txHash <- RestClient_transfer account recipient_address amount ;;
  catch (then_ (RestClient_waitForTransaction txHash)
           (fun _ => resolve (JsBool true)))
        (fun msg => reject msg) ;;;
  resolve JsUndefined.

Definition createNFTCollection (code name description uri : string)
  (address_ : option string) : Async JsValue :=
  account <- accountOrReject code address_ ;;
  call (ECreateCollection account name description uri).

Definition createNFT (code collection_name name description : string)
  (supply : Z) (uri : string) (address_ : option string) : Async JsValue :=
  account <- accountOrReject code address_ ;;
  call (ECreateToken account collection_name name description supply uri).

Definition offerNFT (code receiver_address creator_address collection_name
  token_name : string) (amount : Z) (address_ : option string) : Async JsValue :=
  account <- accountOrReject code address_ ;;
  call (EOfferToken account receiver_address creator_address collection_name
          token_name amount).

Definition cancelNFTOffer (code receiver_address creator_address collection_name
  token_name : string) (address_ : option string) : Async JsValue :=
  account <- accountOrReject code address_ ;;
  token_id <- call (EGetTokenId creator_address collection_name token_name) ;;
  call (ECancelTokenOffer account receiver_address creator_address token_id).

Definition claimNFT (code sender_address creator_address collection_name
  token_name : string) (address_ : option string) : Async JsValue :=
  account <- accountOrReject code address_ ;;
  call (EClaimToken account sender_address creator_address collection_name
          token_name).

Definition signGenericTransaction (code func : string) (address_ : option string)
  (args : list string) : Async JsValue :=
  account <- accountOrReject code address_ ;;
  let payload :=
    JsObject
      [ ("type", JsString "script_function_payload");
        ("function", JsString func);
        ("type_arguments", JsArray []);
        ("arguments", JsArray (map JsString args)) ] in
  call (ESubmitTransactionHelper account payload).

(** *** Event streams and token ids *)

Definition eventsUrl (address_ eventHandleStruct fieldName : string) : string :=
  nodeUrl env ++ "/accounts/" ++ address_ ++ "/events/" ++ eventHandleStruct
    ++ "/" ++ fieldName.

Definition getEventStream (address_ eventHandleStruct fieldName : string)
  : Async (list Event) :=
  let url := eventsUrl address_ eventHandleStruct fieldName in
  response <- perform (EFetch url) (fun t => fetch env t url) ;;
  if (status response =? 404)%Z then
    perform (EConsoleLog "Status 404 while getEventStream")
      (fun _ => Resolved JsUndefined) ;;;
    resolve []
  else
    resolve (body response).

End Clients.

(** The account [getAccountFromMnemonic] resolves with: its key pair is
    built from the first 32 bytes of the seed. *)
Definition derived (env : Env) (code : string) (address_ : option string)
  : AptosAccount :=
  let keys := keyPair_fromSeed env (firstn 32 (mnemonicToSeedSync env code)) in
  mkAptosAccount keys
    (match address_ with Some a => ensure a | None => authKeyOf env keys end).

(** The value an invalid mnemonic is rejected with (the spec's
    InvalidMnemonic). *)
Definition InvalidMnemonic : JsValue := JsString "Incorrect mnemonic passed".

(** The GET requests among the calls made, in order. *)
Definition fetches (t : Trace) : list string :=
  flat_map (fun e => match e with EFetch url => [url] | _ => [] end) t.

(** The identity an event is about. *)
Definition tokenOf (e : Event) : TokenId := id (data e).

Definition isEventEqual (event1 event2 : Event) : bool :=
  (creator (id (data event1)) =? creator (id (data event2)))
  && (collectionName (id (data event1)) =? collectionName (id (data event2)))
  && (name (id (data event1)) =? name (id (data event2))).

(** The statements of [getTokenIds] after its two awaits. *)
Definition tokenIdsOf (address_ : string) (getAll getMinted : bool)
  (depositEvents withdrawEvents : list Event) : list TokenId :=
  let tokenIds : list TokenId := [] in
  if getAll then
    for_of depositEvents
      (fun tokenIds elem => push tokenIds (id (data elem))) tokenIds
  else if getMinted then
    for_of depositEvents
      (fun tokenIds elem =>
         if creator (id (data elem)) =? "0x" ++ address_
         then push tokenIds (id (data elem))
         else tokenIds) tokenIds
  else
    for_of depositEvents
      (fun tokenIds elem =>
         if negb (some withdrawEvents (fun item => isEventEqual item elem))
         then push tokenIds (id (data elem))
         else tokenIds) tokenIds.

Definition getTokenIds (env : Env) (address_ : string) (getAll getMinted : bool)
  : Async (list TokenId) :=
  depositEvents <- getEventStream env address_ "0x1::Token::TokenStore"
                     "deposit_events" ;;
  withdrawEvents <- getEventStream env address_ "0x1::Token::TokenStore"
                      "withdraw_events" ;;
  resolve (tokenIdsOf address_ getAll getMinted depositEvents withdrawEvents).

End Wallet.

(** ** Test doubles *)

Module Fixtures.

Import Hex Async Wallet.

Definition tokenA : TokenId := mkTokenId "0xa11ce" "AliceCollection" "AliceToken".
Definition tokenB : TokenId := mkTokenId "0xb0b" "BobCollection" "BobToken".
Definition tokenC : TokenId := mkTokenId "0xa11ce" "AliceCollection" "Second".

Definition event (seq : string) (token : TokenId) (quantity : string) : Event :=
  mkEvent seq (mkEventData token quantity).

Definition page (events : list Event) : Response := mkResponse 200 None events.

Definition notFound : Response := mkResponse 404 None [].

Definition goodMnemonic : string :=
  "legal winner thank year wave sausage worth useful legal winner thank yellow".

(** A 64-byte seed whose two halves differ. *)
Definition testSeed : list byte :=
  repeat Init.Byte.x01 32 ++ repeat Init.Byte.x02 32.

(** A node at [https://node] that serves the given answers for the token
    store of [account], a faucet and clients that accept everything. *)
Definition testEnv (account : string) (deposits withdrawals : Response) : Env :=
  mkEnv "https://node"
    (fun code => code =? goodMnemonic)
    (fun _ => goodMnemonic)
    (fun _ => testSeed)
    (fun seed => mkKeyPair (rev seed) seed)
    (fun bytes => firstn 32 bytes)
    (fun _ url =>
       if url =? "https://node/accounts/" ++ account
                   ++ "/events/0x1::Token::TokenStore/deposit_events"
       then Resolved deposits
       else if url =? "https://node/accounts/" ++ account
                        ++ "/events/0x1::Token::TokenStore/withdraw_events"
       then Resolved withdrawals
       else Rejected (JsString "request failed"))
    (fun _ _ _ => Resolved "0x5ca1ab1e")
    (fun _ _ => Resolved JsUndefined).

Definition depositsABC : Response :=
  page [event "0" tokenA "1"; event "1" tokenB "1"; event "2" tokenC "1"].

Definition withdrawalsB : Response := page [event "0" tokenB "1"].

(** A first page of deposits that announces a following page. *)
Definition firstPageOfDeposits : Response :=
  mkResponse 200 (Some "25") [event "0" tokenB "1"].

Definition bob : AptosAccount :=
  mkAptosAccount (mkKeyPair (rev (firstn 32 testSeed)) (firstn 32 testSeed))
    (new "b0b").

End Fixtures.

(** ** Account resources and token data *)

Module Tokens.

Import Hex Async Wallet.

(** [Types.AccountResource] *)
Record AccountResource : Type := mkAccountResource {
  type : string;
  data : JsValue
}.

(** The error a property read on [undefined] throws. *)
Definition TypeError : JsValue := JsObject [ ("name", JsString "TypeError") ].

(** The value bound to a key of an object; the last binding wins. *)
Fixpoint lookup (key : string) (fields : list (string * JsValue)) : option JsValue :=
  match fields with
  | [] => None
  | (k, v) :: rest =>
      match lookup key rest with
      | Some later => Some later
      | None => if k =? key then Some v else None
      end
  end.

(** [v.key] for the property names the client reads ([coin], [value],
    [token_data], [handle]): undefined on a value that has no such
    property, a TypeError on [undefined] itself. *)
Definition member (v : JsValue) (key : string) : Outcome JsValue :=
  match v with
  | JsUndefined => Rejected TypeError
  | JsObject fields =>
      Resolved (match lookup key fields with
                | Some w => w
                | None => JsUndefined
                end)
  | JsBool _ | JsNumber _ | JsString _ | JsArray _ => Resolved JsUndefined
  end.

(** A token id handed over as a table key. *)
Definition TokenId_value (tokenId : TokenId) : JsValue :=
  JsObject
    [ ("creator", JsString (creator tokenId));
      ("collectionName", JsString (collectionName tokenId));
      ("name", JsString (name tokenId)) ].

(** The calls into [AptosClient] and [TokenClient] that read account
    resources and table items. *)
Inductive Call : Type :=
| CGetAccountResources (accountAddress : string)
| CTableItem (handle : JsValue) (keyType valueType : string) (key : JsValue).

(** The calls made so far: those of the wallet methods above, and the
    resource and table reads. *)
Record World : Type := mkWorld {
  effects : Trace;
  calls : list Call
}.

(** How the node answers the reads. *)
Record Node : Type := mkNode {
  resourcesAnswer : World -> string -> Outcome (list AccountResource);
  tableItemAnswer : World -> JsValue -> string -> string -> JsValue -> Outcome JsValue
}.

(** An asynchronous method that also reads resources. *)
Definition Task (A : Type) : Type := World -> Outcome A * World.

Definition done {A : Type} (value : A) : Task A :=
  fun w => (Resolved value, w).

(** A synchronous step that may throw. *)
Definition settle {A : Type} (o : Outcome A) : Task A :=
  fun w => (o, w).

Definition andThen {A B : Type} (m : Task A) (k : A -> Task B) : Task B :=
  fun w =>
    match m w with
    | (Resolved value, w') => k value w'
    | (Rejected reason, w') => (Rejected reason, w')
    end.

(** A wallet method of the previous section run as a step. *)
Definition liftAsync {A : Type} (m : Async A) : Task A :=
  fun w =>
    let (o, t) := m (effects w) in (o, mkWorld t (calls w)).

Definition mapTask {A B : Type} (f : A -> Task B) : list A -> Task (list B) :=
  fix go (xs : list A) : Task (list B) :=
    match xs with
    | [] => done []
    | x :: rest =>
        andThen (f x) (fun y => andThen (go rest) (fun ys => done (y :: ys)))
    end.

Section Reads.

Variable env : Env.
Variable node : Node.

(** [parseInt] and the numbers it yields. *)
Variable number : Type.
Variable parseInt : JsValue -> number.

Definition getAccountResources (accountAddress : string)
  : Task (list AccountResource) :=
  fun w =>
    (resourcesAnswer node w accountAddress,
     mkWorld (effects w) (calls w ++ [CGetAccountResources accountAddress])).

Definition tableItem (handle : JsValue) (keyType valueType : string) (key : JsValue)
  : Task JsValue :=
  fun w =>
    (tableItemAnswer node w handle keyType valueType key,
     mkWorld (effects w) (calls w ++ [CTableItem handle keyType valueType key])).

(** [resources.find((r) => r.type === wanted)] *)
Definition find (resources : list AccountResource) (wanted : string)
  : option AccountResource :=
  List.find (fun r => type r =? wanted) resources.

(** [accountResource.data] where [accountResource] may be undefined. *)
Definition dataOf (accountResource : option AccountResource) : Outcome JsValue :=
  match accountResource with
  | Some r => Resolved (data r)
  | None => Rejected TypeError
  end.

(** [accountResource.data.token_data.handle] *)
Definition tokenDataHandle (accountResource : option AccountResource)
  : Outcome JsValue :=
  match dataOf accountResource with
  | Rejected reason => Rejected reason
  | Resolved d =>
      match member d "token_data" with
      | Rejected reason => Rejected reason
      | Resolved token_data => member token_data "handle"
      end
  end.

(** The loop of [RestClient.accountBalance] over the resources. *)
Fixpoint balanceIn (resources : list AccountResource) : Outcome (option number) :=
  match resources with
  | [] => Resolved None
  | resource :: rest =>
      if type resource =? "0x1::TestCoin::Balance" then
        match member (data resource) "coin" with
        | Rejected reason => Rejected reason
        | Resolved coin =>
            match member coin "value" with
            | Rejected reason => Rejected reason
            | Resolved value => Resolved (Some (parseInt value))
            end
        end
      else balanceIn rest
  end.

(** [RestClient.accountBalance]; [None] is [null]. *)
Definition accountBalance (accountAddress : string) : Task (option number) :=
  andThen (getAccountResources accountAddress)
    (fun resources => settle (balanceIn resources)).

(** [WalletClient.getBalance] *)
Definition getBalance (address_ : string) : Task (option number) :=
  andThen (accountBalance address_) (fun balance => done balance).

(** [WalletClient.getToken] *)
Definition getToken (tokenId : TokenId) : Task JsValue :=
  andThen (getAccountResources (creator tokenId)) (fun resources =>
  let accountResource := find resources "0x1::Token::Collections" in
  andThen (settle (tokenDataHandle accountResource)) (fun handle =>
  andThen (tableItem handle "0x1::Token::TokenId" "0x1::Token::TokenData"
             (TokenId_value tokenId)) (fun token =>
  done token))).

(** The loop [for (var tokenId of tokenIds)] that [getOwnedTokens],
    [getCreatedTokens] and [getTokens] share word for word. *)
Fixpoint tokensLoop (tokenIds : list TokenId) (tokens : list JsValue)
  : Task (list JsValue) :=
  match tokenIds with
  | [] => done tokens
  | tokenId :: rest =>
      andThen (getAccountResources (creator tokenId)) (fun resources =>
      let accountResource := find resources "0x1::Token::Collections" in
      andThen (settle (tokenDataHandle accountResource)) (fun handle =>
      andThen (tableItem handle "0x1::Token::TokenId" "0x1::Token::TokenData"
                 (TokenId_value tokenId)) (fun token =>
      tokensLoop rest (push tokens token))))
  end.

Definition getOwnedTokens (address_ : string) : Task (list JsValue) :=
  andThen (liftAsync (getTokenIds env address_ false false)) (fun tokenIds =>
  tokensLoop tokenIds []).

Definition getCreatedTokens (address_ : string) : Task (list JsValue) :=
  andThen (liftAsync (getTokenIds env address_ false true)) (fun tokenIds =>
  tokensLoop tokenIds []).

Definition getTokens (address_ : string) : Task (list JsValue) :=
  andThen (liftAsync (getTokenIds env address_ true false)) (fun tokenIds =>
  tokensLoop tokenIds []).

(** [WalletClient.getCollection] *)
Definition getCollection (address_ collectionName : string) : Task JsValue :=
  andThen (getAccountResources address_) (fun resources =>
  let accountResource := find resources "0x1::Token::Collections" in
  andThen (settle (tokenDataHandle accountResource)) (fun handle =>
  andThen (tableItem handle "ASCII::String" "0x1::Token::Collections"
             (JsString collectionName)) (fun collection =>
  done collection))).

End Reads.

End Tokens.

(** ** The fetch adapter *)

Module FetchAdapter.

(** What [if (v)] makes of a value. *)
Definition truthy (v : JsValue) : bool :=
  match v with
  | JsUndefined => false
  | JsBool b => b
  | JsNumber n => negb (n =? 0)%Z
  | JsString s => negb (s =? EmptyString)
  | JsArray _ | JsObject _ => true
  end.

Definition upperChar (c : ascii) : ascii :=
  let n := nat_of_ascii c in
  if ((97 <=? n) && (n <=? 122))%nat then ascii_of_nat (n - 32) else c.

(** [s.toUpperCase()] for the ASCII text of a method name. *)
Fixpoint toUpperCase (s : string) : string :=
  match s with
  | EmptyString => EmptyString
  | String c rest => String (upperChar c) (toUpperCase rest)
  end.

(** [config.auth] *)
Record BasicCredentials : Type := mkBasicCredentials {
  username : option string;
  password : option string
}.

(** What node-fetch and axios provide: header collections, the helpers
    that encode credentials and build the URL, and the functions a config
    may carry as [settle]. *)
Record Platform : Type := mkPlatform {
  Headers : Type;
  Settler : Type;
  Headers_new : JsValue -> Headers;
  Headers_copy : Headers -> Headers;
  Headers_set : Headers -> string -> string -> Headers;
  btoa : string -> string;
  (* decodeURI(encodeURIComponent(s)) *)
  recode : string -> string;
  buildFullPath : JsValue -> JsValue -> string;
  buildURL : string -> JsValue -> JsValue -> string
}.

Section Adapter.

Variable P : Platform.

(** [config.settle]: a function, or anything else. *)
Inductive ConfiguredSettle : Type :=
| SettleFunction (f : Settler P)
| NotAFunction (v : JsValue).

(** The fields of the axios config the adapter reads. *)
Record Config : Type := mkConfig {
  headers : JsValue;
  auth : option BasicCredentials;
  method : string;
  data : JsValue;
  mode : JsValue;
  cache : JsValue;
  integrity : JsValue;
  redirect : JsValue;
  referrer : JsValue;
  withCredentials : JsValue;
  baseURL : JsValue;
  url : JsValue;
  params : JsValue;
  paramsSerializer : JsValue;
  responseType : JsValue;
  timeout : option Z;
  timeoutErrorMessage : JsValue;
  settle : ConfiguredSettle
}.

(** The [options] object handed to [new Request]; an absent key is [None].
    [o_redirect] is the [redirect] key of a fetch request's options. *)
Record Options : Type := mkOptions {
  o_headers : Headers P;
  o_method : string;
  o_body : option JsValue;
  o_mode : option JsValue;
  o_cache : option JsValue;
  o_integrity : option JsValue;
  o_redirect : option JsValue;
  o_referrer : option JsValue;
  o_credentials : option string
}.

(** [new Request(url, options)], by what it is built from. *)
Record Request : Type := mkRequest {
  request_url : string;
  request_options : Options
}.

(** What [fetch] resolves with: the status line, the headers and the
    outcome each body reader would have. *)
Record StageOne : Type := mkStageOne {
  ok : bool;
  status : Z;
  statusText : string;
  stage_headers : Headers P;
  arrayBuffer : Async.Outcome JsValue;
  blob : Async.Outcome JsValue;
  json : Async.Outcome JsValue;
  formData : Async.Outcome JsValue;
  text : Async.Outcome JsValue
}.

(** The [response] object of [getResponse]; [r_data] is absent until a
    body is read. *)
Record Response : Type := mkResponse {
  r_ok : bool;
  r_status : Z;
  r_statusText : string;
  r_headers : Headers P;
  r_config : Config;
  r_request : Request;
  r_data : option JsValue
}.

(** axios: [createError], the default [settle], and the call of a
    configured settle function, each by the way it settles the promise. *)
Record Axios : Type := mkAxios {
  createError : JsValue -> Config -> option string -> Request -> JsValue;
  defaultSettle : Response -> Async.Outcome Response;
  callSettle : Settler P -> Response -> Async.Outcome Response
}.

Variable axios : Axios.

Definition authorization (credentials : BasicCredentials) : string :=
  let username :=
    match username credentials with
    | Some u => if u =? EmptyString then EmptyString else u
    | None => EmptyString
    end in
  let password :=
    match password credentials with
    | Some p => if p =? EmptyString then EmptyString else recode P p
    | None => EmptyString
    end in
  "Basic " ++ btoa P (username ++ ":" ++ password).

Definition whenTruthy (v : JsValue) : option JsValue :=
  if truthy v then Some v else None.

Definition createRequest (config : Config) : Request :=
  let headers := Headers_new P (headers config) in
  let headers :=
    match auth config with
    | Some credentials =>
        Headers_set P headers "Authorization" (authorization credentials)
    | None => headers
    end in
  let method := toUpperCase (method config) in
  let body :=
    if negb (method =? "GET") && negb (method =? "HEAD")
    then Some (data config) else None in
  let integrity := whenTruthy (integrity config) in
  let integrity :=
    if truthy (redirect config) then Some (redirect config) else integrity in
  let credentials :=
    match withCredentials config with
    | JsUndefined => None
    | v => Some (if truthy v then "include" else "omit")
    end in
  let fullPath := buildFullPath P (baseURL config) (url config) in
  let url := buildURL P fullPath (params config) (paramsSerializer config) in
  mkRequest url
    (mkOptions headers method body
       (whenTruthy (mode config))
       (whenTruthy (cache config))
       integrity
       None
       (whenTruthy (referrer config))
       credentials).

(** The reader that [switch (config.responseType)] selects. *)
Definition reader (config : Config) (stageOne : StageOne) : Async.Outcome JsValue :=
  match responseType config with
  | JsString "arraybuffer" => arrayBuffer stageOne
  | JsString "blob" => blob stageOne
  | JsString "json" => json stageOne
  | JsString "formData" => formData stageOne
  | _ => text stageOne
  end.

(** [getResponse]: it resolves with an error value or with a response.
    [fetched] is how [fetch(request)] settles. *)
Definition getResponse (request : Request) (config : Config)
  (fetched : Async.Outcome StageOne) : Async.Outcome (JsValue + Response) :=
  match fetched with
  | Async.Rejected _ =>
      Async.Resolved
        (inl (createError axios (JsString "Network Error") config None request))
  | Async.Resolved stageOne =>
      let response (d : option JsValue) :=
        mkResponse (ok stageOne) (status stageOne) (statusText stageOne)
          (Headers_copy P (stage_headers stageOne)) config request d in
      if ((200 <=? status stageOne) && negb (status stageOne =? 204))%Z then
        match reader config stageOne with
        | Async.Resolved d => Async.Resolved (inr (response (Some d)))
        | Async.Rejected reason => Async.Rejected reason
        end
      else Async.Resolved (inr (response None))
  end.

(** Whether [fetchAdapter] arms the timer. *)
Definition timerArmed (config : Config) : bool :=
  match timeout config with
  | Some n => negb (n =? 0)%Z && (0 <? n)%Z
  | None => false
  end.

Definition timeoutMessage (config : Config) : JsValue :=
  if truthy (timeoutErrorMessage config) then timeoutErrorMessage config
  else
    JsString
      ("timeout of "
         ++ match timeout config with
            | Some n => Number_toString n
            | None => "undefined"
            end
         ++ "ms exceeded").

(** [fetchAdapter].  [timerFirst] tells whether the timer, when armed,
    fires before [getResponse] settles. *)
Definition fetchAdapter (config : Config) (fetched : Async.Outcome StageOne)
  (timerFirst : bool) : Async.Outcome Response :=
  let request := createRequest config in
  let raced :=
    if timerArmed config && timerFirst then
      Async.Resolved
        (inl (createError axios (timeoutMessage config) config
                (Some "ECONNABORTED") request))
    else getResponse request config fetched in
  match raced with
  | Async.Rejected reason => Async.Rejected reason
  | Async.Resolved (inl error) => Async.Rejected error
  | Async.Resolved (inr response) =>
      match settle config with
      | SettleFunction f => callSettle axios f response
      | NotAFunction _ => defaultSettle axios response
      end
  end.

End Adapter.

End FetchAdapter.

(** ** Kinds of calls, and further test doubles *)

Module Observations.

Import Hex Async Wallet.

(** The calls that stay on the machine: drawing a mnemonic, deriving the
    seed and building the key pair. *)
Definition isLocal (e : Effect) : bool :=
  match e with
  | EGenerateMnemonic | EMnemonicToSeed _ | EKeyPairFromSeed _ => true
  | _ => false
  end.

(** A node that cannot be reached, with a faucet that refuses and clients
    that refuse to submit; the mnemonic library works as in [testEnv]. *)
Definition offlineEnv : Env :=
  mkEnv "https://node"
    (fun code => code =? Fixtures.goodMnemonic)
    (fun _ => Fixtures.goodMnemonic)
    (fun _ => Fixtures.testSeed)
    (fun seed => mkKeyPair (rev seed) seed)
    (fun bytes => firstn 32 bytes)
    (fun _ _ => Rejected (JsString "request failed"))
    (fun _ _ _ => Rejected (JsString "submission refused"))
    (fun _ e =>
       match e with
       | EFundAccount _ _ => Rejected (JsString "faucet unavailable")
       | EGetTokenId _ _ _ => Rejected (JsString "no such token")
       | _ => Resolved JsUndefined
       end).

(** A node whose clients answer with recognisable values. *)
Definition talkativeEnv : Env :=
  mkEnv "https://node"
    (fun code => code =? Fixtures.goodMnemonic)
    (fun _ => Fixtures.goodMnemonic)
    (fun _ => Fixtures.testSeed)
    (fun seed => mkKeyPair (rev seed) seed)
    (fun bytes => firstn 32 bytes)
    (fun _ _ => Resolved (Fixtures.page []))
    (fun _ _ _ => Resolved "0x5ca1ab1e")
    (fun _ e =>
       match e with
       | EGenerateTransaction _ _ => Resolved (JsString "request")
       | ESignTransaction _ _ => Resolved (JsString "signed")
       | EGetTokenId _ _ _ => Resolved (JsNumber 7)
       | EWaitForTransaction _ => Rejected (JsString "still pending")
       | _ => Resolved JsUndefined
       end).

End Observations.

Module ReadFixtures.

Import Hex Async Wallet Tokens.

Definition balanceOf (value : string) : AccountResource :=
  mkAccountResource "0x1::TestCoin::Balance"
    (JsObject [ ("coin", JsObject [ ("value", JsString value) ]) ]).

Definition collectionsAt (handle : string) : AccountResource :=
  mkAccountResource "0x1::Token::Collections"
    (JsObject [ ("token_data", JsObject [ ("handle", JsString handle) ]) ]).

(** A node on which only the accounts [0xa11ce] and [0xb0b] hold
    resources, [0xb0b] none for tokens; a table read echoes its handle and
    key. *)
Definition testNode : Node :=
  mkNode
    (fun _ accountAddress =>
       if accountAddress =? "0xa11ce"
       then Resolved [balanceOf "42"; collectionsAt "77"; balanceOf "1"]
       else if accountAddress =? "0xb0b"
       then Resolved [mkAccountResource "0x1::Account::Account" JsUndefined]
       else Rejected (JsString "account not found"))
    (fun _ handle _ _ key =>
       Resolved (JsObject [ ("handle", handle); ("key", key) ])).

Definition start : World := mkWorld [] [].

End ReadFixtures.

Module AdapterFixtures.

Import FetchAdapter.

(** Headers as a list of name and value, credentials encoded by marking
    them, URLs built by concatenation; no settle function is configured. *)
Definition testPlatform : Platform :=
  mkPlatform (list (string * string)) unit
    (fun _ => [])
    (fun h => h)
    (fun h k v => (k, v) :: h)
    (fun s => ("base64(" ++ s ++ ")")%string)
    (fun s => s)
    (fun base path =>
       match base, path with
       | JsString b, JsString p => (b ++ p)%string
       | _, JsString p => p
       | _, _ => EmptyString
       end)
    (fun fullPath _ _ => fullPath).

(** An axios whose errors are objects holding message and code, and whose
    default settle accepts every response. *)
Definition testAxios : Axios testPlatform :=
  mkAxios testPlatform
    (fun message _ code _ =>
       JsObject
         [ ("message", message);
           ("code", match code with Some c => JsString c | None => JsUndefined end) ])
    (fun response => Async.Resolved response)
    (fun _ response => Async.Resolved response).

Definition testConfig (method : string) (timeout : option Z) : Config testPlatform :=
  mkConfig testPlatform JsUndefined None method (JsString "payload")
    JsUndefined JsUndefined (JsString "sha256-abc") (JsString "follow") JsUndefined
    JsUndefined (JsString "https://node") (JsString "/transactions")
    JsUndefined JsUndefined (JsString "json") timeout JsUndefined
    (NotAFunction testPlatform JsUndefined).

Definition answered (status : Z) : StageOne testPlatform :=
  mkStageOne testPlatform true status EmptyString []
    (Async.Rejected (JsString "no body"))
    (Async.Rejected (JsString "no body"))
    (Async.Resolved (JsString "parsed"))
    (Async.Rejected (JsString "no body"))
    (Async.Resolved (JsString "raw")).

End AdapterFixtures.

(** * Properties *)

(** ** The hex codec *)

Module HexFacts.

Import Hex.

Lemma string_pair_ind (P : string -> Prop) :
  P EmptyString ->
  (forall c, P (String c EmptyString)) ->
  (forall c1 c2 rest, P rest -> P (String c1 (String c2 rest))) ->
  forall s, P s.
Proof.
  intros Hnil Hone Hstep s.
  assert (H : P s /\ forall c, P (String c s)).
  { induction s as [|c s [IH1 IH2]].
    - split; [exact Hnil | exact Hone].
    - split; [apply IH2 | intros c0; apply Hstep, IH1]. }
  exact (proj1 H).
Qed.

Lemma byte_digits_decode (b : byte) :
  let n := Strings.Byte.to_N b in
  hexValue (hexDigit (n / 16)) = Some (n / 16)%N
  /\ hexValue (hexDigit (n mod 16)) = Some (n mod 16)%N
  /\ Strings.Byte.of_N (n / 16 * 16 + n mod 16) = Some b.
Proof. destruct b; repeat split; reflexivity. Qed.

Lemma byte_digits_lower (b : byte) :
  let n := Strings.Byte.to_N b in
  isLowerHexDigit (hexDigit (n / 16)) = true
  /\ isLowerHexDigit (hexDigit (n mod 16)) = true.
Proof. destruct b; split; reflexivity. Qed.

Lemma byte_digits_not_x (b : byte) :
  (hexDigit (Strings.Byte.to_N b mod 16) =? "x")%char = false.
Proof. destruct b; reflexivity. Qed.

Lemma hexToBuffer_bufferToHex (buffer : list byte) :
  hexToBuffer (bufferToHex buffer) = Some buffer.
Proof.
  induction buffer as [|b rest IH]; [reflexivity|].
  destruct (byte_digits_decode b) as (Hhi & Hlo & Hof).
  cbn [bufferToHex hexToBuffer]. cbv zeta.
  rewrite Hhi, Hlo, IH, Hof. reflexivity.
Qed.

Lemma bufferToHex_no_prefix (buffer : list byte) :
  startsWith (bufferToHex buffer) "0x" = false.
Proof.
  destruct buffer as [|b rest]; [reflexivity|].
  cbn [bufferToHex startsWith]. cbv zeta.
  rewrite (byte_digits_not_x b), andb_false_l, andb_false_r. reflexivity.
Qed.

Lemma bufferToHex_lower (buffer : list byte) :
  allChars isLowerHexDigit (bufferToHex buffer) = true.
Proof.
  induction buffer as [|b rest IH]; [reflexivity|].
  destruct (byte_digits_lower b) as (Hhi & Hlo).
  cbn [bufferToHex allChars]. cbv zeta. rewrite Hhi, Hlo, IH. reflexivity.
Qed.

Lemma bufferToHex_even (buffer : list byte) :
  Nat.even (String.length (bufferToHex buffer)) = true.
Proof.
  induction buffer as [|b rest IH]; [reflexivity|].
  cbn [bufferToHex String.length Nat.even]. exact IH.
Qed.

Lemma toHex_unfold (buffer : list byte) :
  toHex buffer = ("0x" ++ bufferToHex buffer)%string.
Proof.
  unfold toHex, fromBuffer, new, hex.
  rewrite bufferToHex_no_prefix. reflexivity.
Qed.

Lemma fromHex_prefixed (text : string) :
  fromHex ("0x" ++ text)%string = hexToBuffer text.
Proof. reflexivity. Qed.

Lemma fromHex_bare (text : string) :
  startsWith text "0x" = false -> fromHex text = hexToBuffer text.
Proof.
  intros H. unfold fromHex, new. rewrite H. reflexivity.
Qed.

Lemma lower_digit_inv (c : ascii) :
  isLowerHexDigit c = true ->
  exists n, hexValue c = Some n /\ hexDigit n = c /\ (n < 16)%N.
Proof.
  destruct c as [b0 b1 b2 b3 b4 b5 b6 b7].
  destruct b0, b1, b2, b3, b4, b5, b6, b7; intros H;
    try discriminate H;
    eexists; (split; [reflexivity | split; reflexivity]).
Qed.

Lemma lower_digit_not_x (c : ascii) :
  isLowerHexDigit c = true -> c <> "x"%char.
Proof. intros H ->. discriminate H. Qed.

Lemma lower_no_prefix (text : string) :
  allChars isLowerHexDigit text = true -> startsWith text "0x" = false.
Proof.
  destruct text as [|c1 [|c2 rest]]; try reflexivity.
  - intros _. cbn. apply andb_false_r.
  - cbn [allChars]. intros H.
    apply andb_prop in H as [_ H]. apply andb_prop in H as [H2 _].
    cbn [startsWith].
    destruct (Ascii.eqb_spec c2 "x") as [E|_].
    + exfalso. exact (lower_digit_not_x c2 H2 E).
    + rewrite andb_false_l. apply andb_false_r.
Qed.

Lemma hexToBuffer_lower (text : string) :
  allChars isLowerHexDigit text = true ->
  Nat.even (String.length text) = true ->
  exists buffer, hexToBuffer text = Some buffer /\ bufferToHex buffer = text.
Proof.
  induction text as [|c|c1 c2 rest IH] using string_pair_ind.
  - intros _ _. exists []. split; reflexivity.
  - intros _ H. discriminate H.
  - cbn [allChars String.length Nat.even]. intros Hl He.
    apply andb_prop in Hl as [H1 Hl]. apply andb_prop in Hl as [H2 Hl].
    destruct (IH Hl He) as (bytes & Hdec & Henc).
    destruct (lower_digit_inv c1 H1) as (h & Hh & Hdh & Hhb).
    destruct (lower_digit_inv c2 H2) as (l & Hv & Hdl & Hlb).
    destruct (Strings.Byte.of_N (h * 16 + l)) as [b|] eqn:Hb.
    + exists (b :: bytes). split.
      * cbn [hexToBuffer]. rewrite Hh, Hv, Hdec, Hb. reflexivity.
      * apply Strings.Byte.to_of_N in Hb.
        cbn [bufferToHex]. cbv zeta. rewrite Hb, Henc.
        replace ((h * 16 + l) / 16)%N with h
          by (apply N.div_unique with l; lia).
        replace ((h * 16 + l) mod 16)%N with l
          by (apply N.mod_unique with h; lia).
        rewrite Hdh, Hdl. reflexivity.
    + apply Strings.Byte.of_N_None_iff in Hb. lia.
Qed.

(** The assertions of [hex_string.test.js]. *)
Example accepts_input_without_prefix :
  hex (new "007711b4d0") = "0x007711b4d0"
  /\ toString (new "007711b4d0") = "0x007711b4d0"
  /\ noPrefix (new "007711b4d0") = "007711b4d0".
Proof. repeat split. Qed.

Example accepts_input_with_prefix :
  hex (new "0x007711b4d0") = "0x007711b4d0"
  /\ noPrefix (new "0x007711b4d0") = "007711b4d0".
Proof. repeat split. Qed.

Example from_to_buffer :
  option_map bufferToHex (toBuffer (new "0x007711b4d0")) = Some "007711b4d0"
  /\ option_map (fun b => hex (fromBuffer b)) (toBuffer (new "0x007711b4d0"))
     = Some "0x007711b4d0".
Proof. split; reflexivity. Qed.

Example short_address_form_correct :
  toShortString (new "007711b4d0") = "0x7711b4d0"
  /\ toShortString
       (new "0x2185b82cef9bc46249ff2dbc56c265f6a0e3bdb7b9498cc45e4f6e429530fdc0")
     = "0x2185b82cef9bc46249ff2dbc56c265f6a0e3bdb7b9498cc45e4f6e429530fdc0".
Proof. split; reflexivity. Qed.

End HexFacts.

(** ** Numbers as text *)

Module NumberFacts.

Lemma to_int_proper (n : Z) :
  Z.to_int n <> Decimal.Pos Decimal.Nil /\ Z.to_int n <> Decimal.Neg Decimal.Nil.
Proof.
  destruct n as [|p|p]; cbn; split; try discriminate;
    intros [= E]; exact (DecimalPos.Unsigned.to_uint_nonnil p E).
Qed.

Lemma parseDecimal_toString (n : Z) :
  parseDecimal (Number_toString n) = Some n.
Proof.
  unfold parseDecimal, Number_toString.
  destruct (to_int_proper n) as [Hp Hn].
  rewrite (NilZero.isi _ Hp Hn). cbn. f_equal. apply DecimalZ.of_to.
Qed.

Lemma digits_of_uint (d : Decimal.uint) :
  allChars isDigit (NilEmpty.string_of_uint d) = true.
Proof. induction d; cbn; auto. Qed.

Lemma toString_digits (n : Z) :
  (0 <= n)%Z -> allChars isDigit (Number_toString n) = true.
Proof.
  unfold Number_toString. destruct n as [|p|p]; [reflexivity| |lia].
  intros _. cbn [Z.to_int NilZero.string_of_int].
  unfold NilZero.string_of_uint.
  destruct (Pos.to_uint p) eqn:E; try (rewrite <- E; apply digits_of_uint).
  reflexivity.
Qed.

Lemma toString_negative (n : Z) :
  (n < 0)%Z -> exists digits, Number_toString n = String "-" digits.
Proof.
  destruct n as [|p|p]; try lia. intros _.
  eexists. reflexivity.
Qed.

End NumberFacts.

(** ** Loops that push *)

Module LoopFacts.

Import Async Wallet.

Lemma for_of_push_if {A B : Type} (keep : A -> bool) (f : A -> B) (xs : list A) :
  forall acc,
    for_of xs (fun acc x => if keep x then push acc (f x) else acc) acc
    = acc ++ map f (filter keep xs).
Proof.
  unfold for_of, push.
  induction xs as [|x xs IH]; intros acc; cbn [fold_left filter].
  - cbn. now rewrite app_nil_r.
  - rewrite IH. destruct (keep x); [|reflexivity].
    cbn [map]. now rewrite <- app_assoc.
Qed.

Lemma for_of_push_all {A B : Type} (f : A -> B) (xs : list A) :
  forall acc, for_of xs (fun acc x => push acc (f x)) acc = acc ++ map f xs.
Proof.
  unfold for_of, push.
  induction xs as [|x xs IH]; intros acc; cbn [fold_left map].
  - now rewrite app_nil_r.
  - rewrite IH. now rewrite <- app_assoc.
Qed.

Lemma TokenId_eta (a b : TokenId) :
  creator a = creator b -> collectionName a = collectionName b ->
  name a = name b -> a = b.
Proof. destruct a, b; cbn; intros -> -> ->; reflexivity. Qed.

Lemma TokenId_eq_dec (a b : TokenId) : {a = b} + {a <> b}.
Proof. decide equality; apply string_dec. Defined.

Lemma count_occ_tokens (events : list Event) (token : TokenId) :
  count_occ TokenId_eq_dec (map tokenOf events) token
  = length (filter (fun e => if TokenId_eq_dec (tokenOf e) token then true else false)
              events).
Proof.
  induction events as [|e events IH]; [reflexivity|].
  cbn [map count_occ filter].
  destruct (TokenId_eq_dec (tokenOf e) token); cbn [length]; now rewrite IH.
Qed.

Lemma isEventEqual_iff (event1 event2 : Event) :
  isEventEqual event1 event2 = true <-> tokenOf event1 = tokenOf event2.
Proof.
  unfold isEventEqual, tokenOf. split.
  - intros H. apply andb_prop in H as [H Hn]. apply andb_prop in H as [Hc Hk].
    apply String.eqb_eq in Hc, Hk, Hn. now apply TokenId_eta.
  - intros ->. now rewrite !String.eqb_refl.
Qed.

(** Whether some withdrawal is about the same token as [elem]. *)
Lemma withdrawn_iff (withdrawEvents : list Event) (elem : Event) :
  some withdrawEvents (fun item => isEventEqual item elem) = true
  <-> exists w, In w withdrawEvents /\ tokenOf w = tokenOf elem.
Proof.
  unfold some. rewrite existsb_exists.
  split; intros (w & Hin & H); exists w; split; auto;
    now apply isEventEqual_iff.
Qed.

Lemma tokenIdsOf_all (address_ : string) (getMinted : bool)
  (depositEvents withdrawEvents : list Event) :
  tokenIdsOf address_ true getMinted depositEvents withdrawEvents
  = map tokenOf depositEvents.
Proof. unfold tokenIdsOf. now rewrite for_of_push_all. Qed.

Lemma tokenIdsOf_minted (address_ : string) (depositEvents withdrawEvents : list Event) :
  tokenIdsOf address_ false true depositEvents withdrawEvents
  = map tokenOf
      (filter (fun e => creator (tokenOf e) =? "0x" ++ address_) depositEvents).
Proof.
  unfold tokenIdsOf.
  now rewrite (for_of_push_if (fun e => creator (tokenOf e) =? "0x" ++ address_) tokenOf).
Qed.

Lemma tokenIdsOf_owned (address_ : string) (depositEvents withdrawEvents : list Event) :
  tokenIdsOf address_ false false depositEvents withdrawEvents
  = map tokenOf
      (filter (fun e => negb (some withdrawEvents (fun item => isEventEqual item e)))
         depositEvents).
Proof.
  unfold tokenIdsOf.
  now rewrite (for_of_push_if
    (fun e => negb (some withdrawEvents (fun item => isEventEqual item e))) tokenOf).
Qed.

Lemma owned_iff (address_ : string) (depositEvents withdrawEvents : list Event)
  (token : TokenId) :
  In token (tokenIdsOf address_ false false depositEvents withdrawEvents)
  <-> (exists d, In d depositEvents /\ tokenOf d = token)
      /\ ~ (exists w, In w withdrawEvents /\ tokenOf w = token).
Proof.
  rewrite tokenIdsOf_owned, in_map_iff. split.
  - intros (d & <- & Hd). apply filter_In in Hd as [Hin Hkeep]. split.
    + now exists d.
    + intros Hw. apply withdrawn_iff in Hw. rewrite Hw in Hkeep. discriminate.
  - intros [(d & Hin & <-) Hno]. exists d. split; [reflexivity|].
    apply filter_In. split; [exact Hin|].
    destruct (some withdrawEvents _) eqn:E; [|reflexivity].
    exfalso. apply Hno. now apply withdrawn_iff.
Qed.

Lemma tokens_of_permutation (xs ys : list Event) (token : TokenId) :
  Permutation xs ys ->
  (exists e, In e xs /\ tokenOf e = token) <-> (exists e, In e ys /\ tokenOf e = token).
Proof.
  intros P. split; intros (e & Hin & H); exists e; split; auto.
  - now apply (Permutation_in _ P).
  - now apply (Permutation_in _ (Permutation_sym P)).
Qed.

Lemma tokens_of_map (xs ys : list Event) (token : TokenId) :
  map tokenOf xs = map tokenOf ys ->
  (exists e, In e xs /\ tokenOf e = token) <-> (exists e, In e ys /\ tokenOf e = token).
Proof.
  intros E.
  assert (H : forall l, (exists e, In e l /\ tokenOf e = token) <-> In token (map tokenOf l)).
  { intros l. rewrite in_map_iff. split; intros (e & A & B); exists e; auto. }
  now rewrite !H, E.
Qed.

End LoopFacts.

(** ** Settling of asynchronous methods *)

Module AsyncFacts.

Import Hex Async Wallet.

Lemma catch_rethrow {A : Type} (m : Async A) (t : Trace) :
  catch m (fun msg => reject msg) t = m t.
Proof. unfold catch, reject. destruct (m t) as [[v|r] t']; reflexivity. Qed.

Lemma accountOrReject_eq (env : Env) (code : string) (address_ : option string)
  (t : Trace) :
  accountOrReject env code address_ t = getAccountFromMnemonic env code address_ t.
Proof. apply catch_rethrow. Qed.

Lemma bind_rejected {A B : Type} (m : Async A) (k : A -> Async B) (t t' : Trace)
  (reason : JsValue) :
  m t = (Rejected reason, t') -> bind m k t = (Rejected reason, t').
Proof. intros H. unfold bind. now rewrite H. Qed.

Lemma bind_resolved {A B : Type} (m : Async A) (k : A -> Async B) (t t' : Trace)
  (value : A) :
  m t = (Resolved value, t') -> bind m k t = k value t'.
Proof. intros H. unfold bind. now rewrite H. Qed.

Lemma getAccountFromMnemonic_valid (env : Env) (code : string)
  (address_ : option string) (t : Trace) :
  validateMnemonic env code = true ->
  getAccountFromMnemonic env code address_ t
  = (Resolved (derived env code address_),
     t ++ [EMnemonicToSeed code;
           EKeyPairFromSeed (firstn 32 (mnemonicToSeedSync env code))]).
Proof.
  intros H. unfold getAccountFromMnemonic. rewrite H. cbn.
  unfold bind, perform, AptosAccount_new, bind, perform, resolve, derived. cbn.
  now rewrite <- app_assoc.
Qed.

Lemma getAccountFromMnemonic_invalid (env : Env) (code : string)
  (address_ : option string) (t : Trace) :
  validateMnemonic env code = false ->
  getAccountFromMnemonic env code address_ t = (Rejected InvalidMnemonic, t).
Proof.
  intros H. unfold getAccountFromMnemonic. now rewrite H.
Qed.

Lemma getAccountFromMnemonic_rejected (env : Env) (code : string)
  (address_ : option string) (t t' : Trace) (reason : JsValue) :
  getAccountFromMnemonic env code address_ t = (Rejected reason, t') ->
  validateMnemonic env code = false /\ reason = InvalidMnemonic /\ t' = t.
Proof.
  destruct (validateMnemonic env code) eqn:V.
  - rewrite (getAccountFromMnemonic_valid _ _ _ _ V). discriminate.
  - rewrite (getAccountFromMnemonic_invalid _ _ _ _ V).
    intros [= <- <-]. auto.
Qed.

Lemma getEventStream_eq (env : Env) (address_ handle field : string) (t : Trace) :
  getEventStream env address_ handle field t
  = let url := eventsUrl env address_ handle field in
    match fetch env t url with
    | Resolved response =>
        if (status response =? 404)%Z
        then (Resolved [],
              t ++ [EFetch url; EConsoleLog "Status 404 while getEventStream"])
        else (Resolved (body response), t ++ [EFetch url])
    | Rejected reason => (Rejected reason, t ++ [EFetch url])
    end.
Proof.
  unfold getEventStream, bind, perform, resolve. cbv zeta.
  destruct (fetch env t _) as [response|reason]; [|reflexivity].
  destruct (status response =? 404)%Z; [|reflexivity].
  cbn. now rewrite <- app_assoc.
Qed.

Lemma fetches_app (t u : Trace) : fetches (t ++ u) = fetches t ++ fetches u.
Proof. unfold fetches. apply flat_map_app. Qed.

End AsyncFacts.

(** * The claims *)

Import Hex Async Wallet.

(** C6. Converting a byte buffer to hex text and back is the identity;
    [toHex] always emits [0x] followed by an even number of lowercase hex
    digits; and canonical text, given with or without the [0x] prefix,
    decodes to a buffer whose rendering is that text with the prefix. *)
Theorem hex_round_trip :
  (forall b : list byte, fromHex (toHex b) = Some b)
  /\ (forall b : list byte,
        exists digits,
          toHex b = ("0x" ++ digits)%string
          /\ Nat.even (String.length digits) = true
          /\ Nat.even (String.length (toHex b)) = true
          /\ allChars isLowerHexDigit digits = true)
  /\ (forall text : string,
        allChars isLowerHexDigit text = true ->
        Nat.even (String.length text) = true ->
        exists b,
          fromHex text = Some b
          /\ fromHex ("0x" ++ text)%string = Some b
          /\ toHex b = ("0x" ++ text)%string
          /\ hex (new text) = hex (new ("0x" ++ text)%string)).
Proof.
  split; [|split].
  - intros b. rewrite HexFacts.toHex_unfold, HexFacts.fromHex_prefixed.
    apply HexFacts.hexToBuffer_bufferToHex.
  - intros b. exists (bufferToHex b).
    rewrite HexFacts.toHex_unfold.
    repeat split.
    + apply HexFacts.bufferToHex_even.
    + cbn [String.append String.length Nat.even]. apply HexFacts.bufferToHex_even.
    + apply HexFacts.bufferToHex_lower.
  - intros text Hl He.
    destruct (HexFacts.hexToBuffer_lower text Hl He) as (b & Hdec & Henc).
    pose proof (HexFacts.lower_no_prefix text Hl) as Hp.
    exists b. repeat split.
    + now rewrite (HexFacts.fromHex_bare text Hp).
    + now rewrite HexFacts.fromHex_prefixed.
    + now rewrite HexFacts.toHex_unfold, Henc.
    + unfold new. rewrite Hp. reflexivity.
Qed.

Lemma hex_round_trip_witness :
  exists b,
    fromHex "007711b4d0" = Some b
    /\ fromHex "0x007711b4d0" = Some b
    /\ toHex b = "0x007711b4d0"
    /\ hex (new "007711b4d0") = hex (new "0x007711b4d0").
Proof.
  apply (proj2 (proj2 hex_round_trip) "007711b4d0"); reflexivity.
Defined.

(** C3. An invalid mnemonic is rejected with the InvalidMnemonic value
    before any call is made: no seed is derived and no key pair is built.
    A valid mnemonic resolves with an account whose key pair is built from
    the first 32 bytes of the derived seed. *)
Theorem getAccountFromMnemonic_validates_first (env : Env) (code : string)
  (address_ : option string) (t : Trace) :
  (validateMnemonic env code = false ->
     getAccountFromMnemonic env code address_ t = (Rejected InvalidMnemonic, t))
  /\ (validateMnemonic env code = true ->
        exists account,
          getAccountFromMnemonic env code address_ t
          = (Resolved account,
             t ++ [EMnemonicToSeed code;
                   EKeyPairFromSeed (firstn 32 (mnemonicToSeedSync env code))])
          /\ signingKey account
             = keyPair_fromSeed env (firstn 32 (mnemonicToSeedSync env code))).
Proof.
  split; intros V.
  - now apply AsyncFacts.getAccountFromMnemonic_invalid.
  - exists (derived env code address_). split; [|reflexivity].
    now apply AsyncFacts.getAccountFromMnemonic_valid.
Qed.

Lemma getAccountFromMnemonic_validates_first_witness :
  let env := Fixtures.testEnv "b0b" Fixtures.notFound Fixtures.notFound in
  getAccountFromMnemonic env "not a mnemonic" None [] = (Rejected InvalidMnemonic, [])
  /\ exists account,
       getAccountFromMnemonic env Fixtures.goodMnemonic (Some "b0b") []
       = (Resolved account,
          [EMnemonicToSeed Fixtures.goodMnemonic;
           EKeyPairFromSeed (repeat Init.Byte.x01 32)])
       /\ signingKey account
          = mkKeyPair (repeat Init.Byte.x01 32) (repeat Init.Byte.x01 32).
Proof.
  intros env. split.
  - apply (proj1 (getAccountFromMnemonic_validates_first env "not a mnemonic" None [])).
    reflexivity.
  - apply (proj2 (getAccountFromMnemonic_validates_first env Fixtures.goodMnemonic
                    (Some "b0b") [])).
    reflexivity.
Defined.

(** C7. When deriving the account from the mnemonic fails, every method
    that takes a mnemonic rejects with the very value the derivation was
    rejected with, and no call has been made: no transaction is built or
    submitted. *)
Theorem mnemonic_rejection_propagates (env : Env) (code : string)
  (address_ : option string) (t t' : Trace) (reason : JsValue) :
  getAccountFromMnemonic env code address_ t = (Rejected reason, t') ->
  t' = t
  /\ (forall recipient amount,
        transfer env code recipient amount address_ t = (Rejected reason, t'))
  /\ (forall name description uri,
        createNFTCollection env code name description uri address_ t
        = (Rejected reason, t'))
  /\ (forall collection name description supply uri,
        createNFT env code collection name description supply uri address_ t
        = (Rejected reason, t'))
  /\ (forall receiver creator collection token amount,
        offerNFT env code receiver creator collection token amount address_ t
        = (Rejected reason, t'))
  /\ (forall receiver creator collection token,
        cancelNFTOffer env code receiver creator collection token address_ t
        = (Rejected reason, t'))
  /\ (forall sender creator collection token,
        claimNFT env code sender creator collection token address_ t
        = (Rejected reason, t'))
  /\ (forall func args,
        signGenericTransaction env code func address_ args t
        = (Rejected reason, t')).
Proof.
  intros H.
  assert (Hacc : accountOrReject env code address_ t = (Rejected reason, t'))
    by now rewrite AsyncFacts.accountOrReject_eq.
  split.
  - now destruct (AsyncFacts.getAccountFromMnemonic_rejected _ _ _ _ _ _ H) as (_ & _ & ->).
  - repeat split; intros;
      (unfold transfer, createNFTCollection, createNFT, offerNFT, cancelNFTOffer,
         claimNFT, signGenericTransaction);
      now apply AsyncFacts.bind_rejected.
Qed.

Lemma mnemonic_rejection_propagates_witness :
  let env := Fixtures.testEnv "b0b" Fixtures.notFound Fixtures.notFound in
  transfer env "not a mnemonic" "b0b" 20 None [] = (Rejected InvalidMnemonic, [])
  /\ offerNFT env "not a mnemonic" "b0b" "a11ce" "AliceCollection" "AliceToken" 1 None []
     = (Rejected InvalidMnemonic, []).
Proof.
  intros env.
  pose proof (mnemonic_rejection_propagates env "not a mnemonic" None [] []
                InvalidMnemonic eq_refl) as (_ & Ht & _ & _ & Ho & _).
  split; [apply Ht | apply Ho].
Defined.

(** C10. [createWallet] and [importWallet] both ask the faucet to fund the
    derived account's authentication key with amount 10 before they return:
    whenever either resolves, its last call is that funding request, so an
    import is not a pure derivation. *)
Theorem wallets_are_funded_with_ten (env : Env) (t : Trace) :
  (forall code address_ result t',
      importWallet env code address_ t = (Resolved result, t') ->
      exists account t1,
        getAccountFromMnemonic env code address_ t = (Resolved account, t1)
        /\ t' = t1 ++ [EFundAccount (authKey env account) 10])
  /\ (forall result t',
        createWallet env t = (Resolved result, t') ->
        exists account t1,
          getAccountFromMnemonic env (generateMnemonic env t) None
            (t ++ [EGenerateMnemonic]) = (Resolved account, t1)
          /\ t' = t1 ++ [EFundAccount (authKey env account) 10]).
Proof.
  split.
  - intros code address_ result t'.
    unfold importWallet, bind at 1. rewrite AsyncFacts.accountOrReject_eq.
    destruct (getAccountFromMnemonic env code address_ t) as [[account|r] t1];
      [|discriminate].
    unfold bind, call, perform, resolve.
    destruct (collaborator env t1 _); [|discriminate].
    intros [= _ <-]. now exists account, t1.
  - intros result t'.
    unfold createWallet, bind at 1, bip39_generateMnemonic, perform.
    unfold bind at 1. rewrite AsyncFacts.accountOrReject_eq.
    destruct (getAccountFromMnemonic env _ None _) as [[account|r] t1];
      [|discriminate].
    unfold bind, call, perform, resolve.
    destruct (collaborator env t1 _); [|discriminate].
    intros [= _ <-]. now exists account, t1.
Qed.

Lemma wallets_are_funded_with_ten_witness :
  let env := Fixtures.testEnv "b0b" Fixtures.notFound Fixtures.notFound in
  (exists account t1,
     getAccountFromMnemonic env Fixtures.goodMnemonic None [] = (Resolved account, t1)
     /\ snd (importWallet env Fixtures.goodMnemonic None [])
        = t1 ++ [EFundAccount (authKey env account) 10])
  /\ (exists account t1,
        getAccountFromMnemonic env Fixtures.goodMnemonic None [EGenerateMnemonic]
        = (Resolved account, t1)
        /\ snd (createWallet env [])
           = t1 ++ [EFundAccount (authKey env account) 10]).
Proof.
  intros env. split.
  - destruct (importWallet env Fixtures.goodMnemonic None []) as [o t'] eqn:E.
    destruct o as [result|r]; [|vm_compute in E; discriminate E].
    exact (proj1 (wallets_are_funded_with_ten env []) _ _ _ _ E).
  - destruct (createWallet env []) as [o t'] eqn:E.
    destruct o as [result|r]; [|vm_compute in E; discriminate E].
    exact (proj2 (wallets_are_funded_with_ten env []) _ _ E).
Defined.

(** C8. When the node answers the event request with status 404,
    [getEventStream] resolves with the empty list instead of failing; a
    token query whose deposit handle is absent resolves with no token, and
    one whose withdrawal handle is absent reads it as an empty stream. *)
Theorem missing_event_handle_is_empty (env : Env) (address_ : string) (t : Trace) :
  (forall handle field response,
      fetch env t (eventsUrl env address_ handle field) = Resolved response ->
      status response = 404%Z ->
      fst (getEventStream env address_ handle field t) = Resolved [])
  /\ (forall getAll getMinted deposits withdrawals,
        let depositsUrl :=
          eventsUrl env address_ "0x1::Token::TokenStore" "deposit_events" in
        fetch env t depositsUrl = Resolved deposits ->
        status deposits = 404%Z ->
        fetch env
          (t ++ [EFetch depositsUrl; EConsoleLog "Status 404 while getEventStream"])
          (eventsUrl env address_ "0x1::Token::TokenStore" "withdraw_events")
        = Resolved withdrawals ->
        fst (getTokenIds env address_ getAll getMinted t) = Resolved [])
  /\ (forall depositEvents t1 response,
        getEventStream env address_ "0x1::Token::TokenStore" "deposit_events" t
        = (Resolved depositEvents, t1) ->
        fetch env t1 (eventsUrl env address_ "0x1::Token::TokenStore" "withdraw_events")
        = Resolved response ->
        status response = 404%Z ->
        fst (getTokenIds env address_ false false t)
        = Resolved (map tokenOf depositEvents)).
Proof.
  split; [|split].
  - intros handle field response Hf Hs.
    rewrite AsyncFacts.getEventStream_eq. cbv zeta. rewrite Hf, Hs. reflexivity.
  - intros getAll getMinted deposits withdrawals depositsUrl Hf Hs Hw.
    unfold getTokenIds, bind.
    rewrite AsyncFacts.getEventStream_eq. cbv zeta. fold depositsUrl.
    rewrite Hf, Hs. change (404 =? 404)%Z with true. cbv iota beta.
    rewrite AsyncFacts.getEventStream_eq. cbv zeta. rewrite Hw.
    destruct (status withdrawals =? 404)%Z; cbn [fst]; unfold resolve;
      cbn [fst]; f_equal; unfold tokenIdsOf, for_of; cbn;
      now destruct getAll, getMinted.
  - intros depositEvents t1 response Hd Hf Hs.
    unfold getTokenIds. rewrite (AsyncFacts.bind_resolved _ _ _ _ _ Hd).
    unfold bind. rewrite AsyncFacts.getEventStream_eq. cbv zeta.
    rewrite Hf, Hs. unfold resolve.
    change (404 =? 404)%Z with true. cbn [fst]. f_equal.
    rewrite LoopFacts.tokenIdsOf_owned.
    f_equal. apply forallb_filter_id. apply forallb_forall. reflexivity.
Qed.

Lemma missing_event_handle_is_empty_witness :
  let env := Fixtures.testEnv "b0b" Fixtures.depositsABC Fixtures.notFound in
  fst (getEventStream env "b0b" "0x1::Token::TokenStore" "withdraw_events" [])
  = Resolved []
  /\ fst (getTokenIds (Fixtures.testEnv "b0b" Fixtures.notFound Fixtures.withdrawalsB)
            "b0b" true false [])
     = Resolved []
  /\ fst (getTokenIds env "b0b" false false [])
     = Resolved [Fixtures.tokenA; Fixtures.tokenB; Fixtures.tokenC].
Proof.
  intros env. split; [|split].
  - apply (proj1 (missing_event_handle_is_empty env "b0b" [])
             "0x1::Token::TokenStore" "withdraw_events" Fixtures.notFound);
      reflexivity.
  - apply (proj1 (proj2 (missing_event_handle_is_empty
                           (Fixtures.testEnv "b0b" Fixtures.notFound Fixtures.withdrawalsB)
                           "b0b" []))
             true false Fixtures.notFound Fixtures.withdrawalsB);
      reflexivity.
  - apply (proj2 (proj2 (missing_event_handle_is_empty env "b0b" []))
             (body Fixtures.depositsABC)
             [EFetch (eventsUrl env "b0b" "0x1::Token::TokenStore" "deposit_events")]
             Fixtures.notFound);
      reflexivity.
Defined.

(** C9. With [getAll] set, [getTokenIds] resolves with the identity of
    every deposit event in stream order, one entry per event, so that a
    token deposited n times is listed n times; neither the withdrawal
    events nor [getMinted] matter. *)
Theorem getAll_lists_every_deposit (env : Env) (address_ : string)
  (getMinted : bool) (t t1 t2 : Trace) (depositEvents withdrawEvents : list Event) :
  getEventStream env address_ "0x1::Token::TokenStore" "deposit_events" t
  = (Resolved depositEvents, t1) ->
  getEventStream env address_ "0x1::Token::TokenStore" "withdraw_events" t1
  = (Resolved withdrawEvents, t2) ->
  exists tokenIds,
    getTokenIds env address_ true getMinted t = (Resolved tokenIds, t2)
    /\ tokenIds = map tokenOf depositEvents
    /\ length tokenIds = length depositEvents
    /\ (forall n, nth_error tokenIds n = option_map tokenOf (nth_error depositEvents n))
    /\ (forall token,
          count_occ LoopFacts.TokenId_eq_dec tokenIds token
          = length (filter (fun e => if LoopFacts.TokenId_eq_dec (tokenOf e) token
                                     then true else false) depositEvents)).
Proof.
  intros Hd Hw. exists (map tokenOf depositEvents). split; [|repeat split].
  - unfold getTokenIds.
    rewrite (AsyncFacts.bind_resolved _ _ _ _ _ Hd),
      (AsyncFacts.bind_resolved _ _ _ _ _ Hw).
    unfold resolve. now rewrite LoopFacts.tokenIdsOf_all.
  - apply length_map.
  - intros n. apply nth_error_map.
  - intros token. apply LoopFacts.count_occ_tokens.
Qed.

Lemma getAll_lists_every_deposit_witness :
  let env :=
    Fixtures.testEnv "b0b"
      (Fixtures.page [Fixtures.event "0" Fixtures.tokenA "1";
                      Fixtures.event "1" Fixtures.tokenB "1";
                      Fixtures.event "2" Fixtures.tokenA "1"])
      Fixtures.withdrawalsB in
  exists tokenIds,
    fst (getTokenIds env "b0b" true true []) = Resolved tokenIds
    /\ tokenIds = [Fixtures.tokenA; Fixtures.tokenB; Fixtures.tokenA]
    /\ count_occ LoopFacts.TokenId_eq_dec tokenIds Fixtures.tokenA = 2.
Proof.
  intros env.
  destruct (getAll_lists_every_deposit env "b0b" true [] _ _ _ _ eq_refl eq_refl)
    as (tokenIds & Hrun & Heq & _ & _ & Hcount).
  exists tokenIds. split; [now rewrite Hrun|]. split; [exact Heq|].
  rewrite Hcount. reflexivity.
Defined.

(** C1. The owned-tokens query ([getAll] and [getMinted] both false)
    resolves with exactly the identities that occur in some deposit event
    and in no withdrawal event.  As a set the result depends only on which
    identities each stream holds: reordering either stream, or changing
    amounts and sequence numbers, leaves it unchanged. *)
Theorem owned_tokens_set_difference (env : Env) (address_ : string)
  (t t1 t2 : Trace) (depositEvents withdrawEvents : list Event) :
  getEventStream env address_ "0x1::Token::TokenStore" "deposit_events" t
  = (Resolved depositEvents, t1) ->
  getEventStream env address_ "0x1::Token::TokenStore" "withdraw_events" t1
  = (Resolved withdrawEvents, t2) ->
  exists owned,
    getTokenIds env address_ false false t = (Resolved owned, t2)
    /\ (forall token,
          In token owned
          <-> (exists d, In d depositEvents /\ tokenOf d = token)
              /\ ~ (exists w, In w withdrawEvents /\ tokenOf w = token))
    /\ (forall deposits' withdrawals',
          Permutation depositEvents deposits' ->
          Permutation withdrawEvents withdrawals' ->
          forall token,
            In token owned
            <-> In token (tokenIdsOf address_ false false deposits' withdrawals'))
    /\ (forall deposits' withdrawals',
          map tokenOf deposits' = map tokenOf depositEvents ->
          map tokenOf withdrawals' = map tokenOf withdrawEvents ->
          forall token,
            In token owned
            <-> In token (tokenIdsOf address_ false false deposits' withdrawals')).
Proof.
  intros Hd Hw.
  exists (tokenIdsOf address_ false false depositEvents withdrawEvents).
  split; [|split; [|split]].
  - unfold getTokenIds.
    now rewrite (AsyncFacts.bind_resolved _ _ _ _ _ Hd),
      (AsyncFacts.bind_resolved _ _ _ _ _ Hw).
  - intros token. apply LoopFacts.owned_iff.
  - intros deposits' withdrawals' Pd Pw token.
    rewrite !LoopFacts.owned_iff.
    now rewrite (LoopFacts.tokens_of_permutation _ _ token Pd),
      (LoopFacts.tokens_of_permutation _ _ token Pw).
  - intros deposits' withdrawals' Ed Ew token.
    rewrite !LoopFacts.owned_iff.
    now rewrite (LoopFacts.tokens_of_map _ _ token Ed),
      (LoopFacts.tokens_of_map _ _ token Ew).
Qed.

Lemma owned_tokens_set_difference_witness :
  (exists owned,
     getTokenIds (Fixtures.testEnv "b0b" Fixtures.depositsABC Fixtures.withdrawalsB)
       "b0b" false false []
     = (Resolved owned,
        [EFetch "https://node/accounts/b0b/events/0x1::Token::TokenStore/deposit_events";
         EFetch "https://node/accounts/b0b/events/0x1::Token::TokenStore/withdraw_events"])
     /\ (In Fixtures.tokenA owned /\ ~ In Fixtures.tokenB owned /\ In Fixtures.tokenC owned)
     /\ (forall token,
           In token owned
           <-> In token
                 (tokenIdsOf "b0b" false false
                    [Fixtures.event "2" Fixtures.tokenC "1";
                     Fixtures.event "1" Fixtures.tokenB "1";
                     Fixtures.event "0" Fixtures.tokenA "1"]
                    [Fixtures.event "0" Fixtures.tokenB "1"]))
     /\ (forall token,
           In token owned
           <-> In token
                 (tokenIdsOf "b0b" false false
                    [Fixtures.event "7" Fixtures.tokenA "3";
                     Fixtures.event "8" Fixtures.tokenB "2";
                     Fixtures.event "9" Fixtures.tokenC "5"]
                    [Fixtures.event "4" Fixtures.tokenB "9"]))).
Proof.
  destruct (owned_tokens_set_difference
              (Fixtures.testEnv "b0b" Fixtures.depositsABC Fixtures.withdrawalsB)
              "b0b" [] _ _ _ _ eq_refl eq_refl)
    as (owned & Hrun & Hiff & Hperm & Hmap).
  exists owned. split; [exact Hrun|]. split.
  - repeat split.
    + apply Hiff. split.
      * eexists. split; [left; reflexivity | reflexivity].
      * intros (w & [<-|[]] & E). discriminate E.
    + intros Hin. apply Hiff in Hin. apply (proj2 Hin).
      eexists. split; [left; reflexivity | reflexivity].
    + apply Hiff. split.
      * eexists. split; [right; right; left; reflexivity | reflexivity].
      * intros (w & [<-|[]] & E). discriminate E.
  - split.
    + apply (Hperm (rev (body Fixtures.depositsABC)) (body Fixtures.withdrawalsB)
               (Permutation_rev _) (Permutation_refl _)).
    + apply Hmap; reflexivity.
Defined.

(** C4, as the client has it.  With [getAll] false and [getMinted] set,
    [getTokenIds] resolves, in stream order, with the identities of the
    deposit events whose creator is the text [0x] followed by the address
    it was called with; the withdrawal events play no part. *)
Theorem minted_tokens_prefixed_creator (env : Env) (address_ : string)
  (t t1 t2 : Trace) (depositEvents withdrawEvents : list Event) :
  getEventStream env address_ "0x1::Token::TokenStore" "deposit_events" t
  = (Resolved depositEvents, t1) ->
  getEventStream env address_ "0x1::Token::TokenStore" "withdraw_events" t1
  = (Resolved withdrawEvents, t2) ->
  exists minted,
    getTokenIds env address_ false true t = (Resolved minted, t2)
    /\ minted
       = map tokenOf
           (filter (fun e => creator (tokenOf e) =? "0x" ++ address_) depositEvents)
    /\ (forall token,
          In token minted
          <-> (exists d, In d depositEvents /\ tokenOf d = token)
              /\ creator token = ("0x" ++ address_)%string).
Proof.
  intros Hd Hw.
  exists (tokenIdsOf address_ false true depositEvents withdrawEvents).
  split; [|split].
  - unfold getTokenIds.
    now rewrite (AsyncFacts.bind_resolved _ _ _ _ _ Hd),
      (AsyncFacts.bind_resolved _ _ _ _ _ Hw).
  - apply LoopFacts.tokenIdsOf_minted.
  - intros token. rewrite LoopFacts.tokenIdsOf_minted, in_map_iff. split.
    + intros (d & <- & Hin). apply filter_In in Hin as [Hin Hc].
      apply String.eqb_eq in Hc. split; [now exists d | exact Hc].
    + intros [(d & Hin & <-) Hc]. exists d. split; [reflexivity|].
      apply filter_In. split; [exact Hin | now apply String.eqb_eq].
Qed.

Lemma minted_tokens_prefixed_creator_witness :
  exists minted,
    getTokenIds (Fixtures.testEnv "b0b" Fixtures.depositsABC Fixtures.withdrawalsB)
      "b0b" false true []
    = (Resolved minted,
       [EFetch "https://node/accounts/b0b/events/0x1::Token::TokenStore/deposit_events";
        EFetch "https://node/accounts/b0b/events/0x1::Token::TokenStore/withdraw_events"])
    /\ minted = [Fixtures.tokenB].
Proof.
  destruct (minted_tokens_prefixed_creator
              (Fixtures.testEnv "b0b" Fixtures.depositsABC Fixtures.withdrawalsB)
              "b0b" [] _ _ _ _ eq_refl eq_refl)
    as (minted & Hrun & Heq & _).
  exists minted. split; [exact Hrun | exact Heq].
Defined.

(** C4 as stated fails.  Queried with the address [0xb0b], the client
    drops the deposit whose creator is exactly [0xb0b]; and with [getAll]
    set as well, it lists a deposit created by somebody else. *)
Lemma minted_by_queried_address_fails :
  let deposits :=
    Fixtures.page [Fixtures.event "0" Fixtures.tokenB "1";
                   Fixtures.event "1" Fixtures.tokenA "1"] in
  creator Fixtures.tokenB = "0xb0b"
  /\ fst (getTokenIds (Fixtures.testEnv "0xb0b" deposits (Fixtures.page []))
            "0xb0b" false true [])
     = Resolved []
  /\ fst (getTokenIds (Fixtures.testEnv "0xb0b" deposits (Fixtures.page []))
            "0xb0b" true true [])
     = Resolved [Fixtures.tokenB; Fixtures.tokenA].
Proof. repeat split. Qed.

(** C2, as the client has it.  [getEventStream] makes exactly one GET
    request, for the handle's URL, and resolves with the events of that one
    response whatever cursor the response carries; [getTokenIds] makes
    exactly two such requests, deposits first, and computes its result
    from these two responses. *)
Theorem event_stream_single_request (env : Env) (address_ : string) (t : Trace) :
  (forall handle field,
      fetches (snd (getEventStream env address_ handle field t))
      = fetches t ++ [eventsUrl env address_ handle field])
  /\ (forall handle field response,
        fetch env t (eventsUrl env address_ handle field) = Resolved response ->
        status response <> 404%Z ->
        getEventStream env address_ handle field t
        = (Resolved (body response),
           t ++ [EFetch (eventsUrl env address_ handle field)]))
  /\ (forall getAll getMinted tokenIds t',
        getTokenIds env address_ getAll getMinted t = (Resolved tokenIds, t') ->
        fetches t'
        = fetches t
            ++ [eventsUrl env address_ "0x1::Token::TokenStore" "deposit_events";
                eventsUrl env address_ "0x1::Token::TokenStore" "withdraw_events"]
        /\ exists depositEvents t1 withdrawEvents,
             getEventStream env address_ "0x1::Token::TokenStore" "deposit_events" t
             = (Resolved depositEvents, t1)
             /\ getEventStream env address_ "0x1::Token::TokenStore"
                  "withdraw_events" t1
                = (Resolved withdrawEvents, t')
             /\ tokenIds
                = tokenIdsOf address_ getAll getMinted depositEvents withdrawEvents).
Proof.
  assert (single : forall handle field u,
             fetches (snd (getEventStream env address_ handle field u))
             = fetches u ++ [eventsUrl env address_ handle field]).
  { intros handle field u. rewrite AsyncFacts.getEventStream_eq. cbv zeta.
    destruct (fetch env u _) as [response|reason];
      [destruct (status response =? 404)%Z|];
      cbn [snd]; now rewrite AsyncFacts.fetches_app. }
  split; [exact (fun handle field => single handle field t)|split].
  - intros handle field response Hf Hs.
    rewrite AsyncFacts.getEventStream_eq. cbv zeta. rewrite Hf.
    apply Z.eqb_neq in Hs. now rewrite Hs.
  - intros getAll getMinted tokenIds t'. unfold getTokenIds, bind at 1.
    pose proof (single "0x1::Token::TokenStore" "deposit_events" t) as S1.
    destruct (getEventStream env address_ _ "deposit_events" t)
      as [[depositEvents|r] t1] eqn:E1; [|discriminate].
    unfold bind.
    pose proof (single "0x1::Token::TokenStore" "withdraw_events" t1) as S2.
    destruct (getEventStream env address_ _ "withdraw_events" t1)
      as [[withdrawEvents|r] t2] eqn:E2; [|discriminate].
    unfold resolve. intros [= <- <-]. cbn [snd] in S1, S2. split.
    + rewrite S2, S1, <- app_assoc. reflexivity.
    + exists depositEvents, t1, withdrawEvents. repeat split. exact E2.
Qed.

Lemma event_stream_single_request_witness :
  let env :=
    Fixtures.testEnv "b0b" Fixtures.firstPageOfDeposits Fixtures.withdrawalsB in
  getEventStream env "b0b" "0x1::Token::TokenStore" "deposit_events" []
  = (Resolved (body Fixtures.firstPageOfDeposits),
     [EFetch "https://node/accounts/b0b/events/0x1::Token::TokenStore/deposit_events"])
  /\ fetches (snd (getTokenIds env "b0b" false false []))
     = ["https://node/accounts/b0b/events/0x1::Token::TokenStore/deposit_events";
        "https://node/accounts/b0b/events/0x1::Token::TokenStore/withdraw_events"].
Proof.
  intros env. split.
  - apply (proj1 (proj2 (event_stream_single_request env "b0b" []))
             "0x1::Token::TokenStore" "deposit_events" Fixtures.firstPageOfDeposits).
    + reflexivity.
    + cbn. lia.
  - destruct (getTokenIds env "b0b" false false []) as [o t'] eqn:E.
    destruct o as [tokenIds|r]; [|vm_compute in E; discriminate E].
    exact (proj1 (proj2 (proj2 (event_stream_single_request env "b0b" []))
                    false false tokenIds t' E)).
Defined.

(** C2 as stated fails.  The first page of deposits announces a following
    page, yet the client makes no further request for the stream and
    computes the owned tokens from that page alone. *)
Lemma next_cursor_is_not_followed :
  let env := Fixtures.testEnv "b0b" Fixtures.firstPageOfDeposits (Fixtures.page []) in
  let depositsUrl :=
    "https://node/accounts/b0b/events/0x1::Token::TokenStore/deposit_events" in
  let withdrawalsUrl :=
    "https://node/accounts/b0b/events/0x1::Token::TokenStore/withdraw_events" in
  fetch env [] depositsUrl = Resolved Fixtures.firstPageOfDeposits
  /\ next_cursor Fixtures.firstPageOfDeposits = Some "25"
  /\ getEventStream env "b0b" "0x1::Token::TokenStore" "deposit_events" []
     = (Resolved [Fixtures.event "0" Fixtures.tokenB "1"], [EFetch depositsUrl])
  /\ getTokenIds env "b0b" false false []
     = (Resolved [Fixtures.tokenB], [EFetch depositsUrl; EFetch withdrawalsUrl]).
Proof. repeat split. Qed.

(** C5, as the client has it.  [RestClient.transfer] checks nothing: for
    every recipient and every integer amount that a number holds exactly it
    builds the payload and asks for the transaction.  The payload's
    arguments are, in order, the recipient in [0x]-prefixed form and the
    amount as decimal text that reads back as the amount, never a number;
    for an amount of zero or more the text consists of digits only. *)
Theorem transfer_payload_arguments (env : Env) (accountFrom : AptosAccount)
  (recipient : string) (amount : Z) (t : Trace) :
  (Z.abs amount <= MAX_SAFE_INTEGER)%Z ->
  exists recipientText amountText,
    transferPayload recipient amount
    = JsObject
        [ ("type", JsString "script_function_payload");
          ("function", JsString "0x1::TestCoin::transfer");
          ("type_arguments", JsArray []);
          ("arguments", JsArray [JsString recipientText; JsString amountText]) ]
    /\ recipientText = hex (ensure recipient)
    /\ startsWith recipientText "0x" = true
    /\ parseDecimal amountText = Some amount
    /\ ((0 <= amount)%Z -> allChars isDigit amountText = true)
    /\ exists outcome rest,
         RestClient_transfer env accountFrom recipient amount t
         = (outcome,
            t ++ EGenerateTransaction (address accountFrom)
                   (transferPayload recipient amount) :: rest).
Proof.
  intros _.
  exists (toString (ensure recipient)), (Number_toString amount).
  split; [reflexivity|]. split; [reflexivity|]. split; [|split; [|split]].
  - unfold toString, hex, ensure, new.
    destruct (startsWith recipient "0x") eqn:E; [exact E | reflexivity].
  - apply NumberFacts.parseDecimal_toString.
  - apply NumberFacts.toString_digits.
  - unfold RestClient_transfer. cbv zeta. unfold bind at 1, call at 1, perform at 1.
    destruct (collaborator env t _) as [txnRequest|reason].
    + unfold bind at 1, call at 1, perform at 1.
      destruct (collaborator env _ _) as [signedTxn|reason].
      * unfold bind, perform, resolve.
        destruct (submitTransaction env _ _ _) as [res|reason];
          eexists; eexists; rewrite <- !app_assoc; reflexivity.
      * eexists; eexists; rewrite <- !app_assoc; reflexivity.
    + eexists; exists []. reflexivity.
Qed.

Lemma transfer_payload_arguments_witness :
  exists recipientText amountText,
    transferPayload "a11ce" 20
    = JsObject
        [ ("type", JsString "script_function_payload");
          ("function", JsString "0x1::TestCoin::transfer");
          ("type_arguments", JsArray []);
          ("arguments", JsArray [JsString recipientText; JsString amountText]) ]
    /\ recipientText = "0xa11ce"
    /\ parseDecimal amountText = Some 20%Z
    /\ allChars isDigit amountText = true.
Proof.
  assert (safe : (Z.abs 20 <= MAX_SAFE_INTEGER)%Z) by (vm_compute; discriminate).
  destruct (transfer_payload_arguments
              (Fixtures.testEnv "b0b" Fixtures.notFound Fixtures.notFound)
              Fixtures.bob "a11ce" 20 [] safe)
    as (recipientText & amountText & Hp & Hr & _ & Hd & Hdigits & _).
  exists recipientText, amountText.
  split; [exact Hp|]. split; [exact Hr|]. split; [exact Hd|].
  apply Hdigits. lia.
Defined.

(** C5 as stated fails.  A transfer of the amount -5 is built, signed and
    submitted with the text [-5] as its amount, and an empty recipient is
    built into the payload as the bare prefix. *)
Lemma transfer_checks_no_argument :
  let env := Fixtures.testEnv "b0b" Fixtures.notFound Fixtures.notFound in
  let payload :=
    JsObject
      [ ("type", JsString "script_function_payload");
        ("function", JsString "0x1::TestCoin::transfer");
        ("type_arguments", JsArray []);
        ("arguments", JsArray [JsString "0xa11ce"; JsString "-5"]) ] in
  RestClient_transfer env Fixtures.bob "0xa11ce" (-5) []
  = (Resolved "0x5ca1ab1e",
     [EGenerateTransaction (new "b0b") payload;
      ESignTransaction Fixtures.bob JsUndefined;
      ESubmitTransaction Fixtures.bob JsUndefined])
  /\ transferPayload "" 1
     = JsObject
         [ ("type", JsString "script_function_payload");
           ("function", JsString "0x1::TestCoin::transfer");
           ("type_arguments", JsArray []);
           ("arguments", JsArray [JsString "0x"; JsString "1"]) ].
Proof. split; reflexivity. Qed.

(** * Further properties of the clients *)

Module CallFacts.

Import Hex Async Wallet.

Lemma call_eq (env : Env) (e : Effect) (t : Trace) :
  call env e t = (collaborator env t e, t ++ [e]).
Proof. reflexivity. Qed.

Lemma bind_call (env : Env) {B : Type} (e : Effect) (k : JsValue -> Async B)
  (t : Trace) :
  bind (call env e) k t
  = match collaborator env t e with
    | Resolved v => k v (t ++ [e])
    | Rejected reason => (Rejected reason, t ++ [e])
    end.
Proof. unfold bind. rewrite call_eq. now destruct (collaborator env t e). Qed.

Lemma count_occ_filter_le (keep : Event -> bool) (events : list Event)
  (token : TokenId) :
  count_occ LoopFacts.TokenId_eq_dec (map tokenOf (filter keep events)) token
  <= count_occ LoopFacts.TokenId_eq_dec (map tokenOf events) token.
Proof.
  induction events as [|e events IH]; [apply le_n|].
  cbn [filter map count_occ].
  destruct (keep e); cbn [map count_occ];
    destruct (LoopFacts.TokenId_eq_dec (tokenOf e) token); lia.
Qed.

Lemma incl_map_filter (keep : Event -> bool) (events : list Event) :
  incl (map tokenOf (filter keep events)) (map tokenOf events).
Proof.
  intros token Hin. apply in_map_iff in Hin as (e & <- & Hin).
  apply filter_In in Hin as [Hin _]. now apply in_map.
Qed.

Lemma tokenIdsOf_filtered (address_ : string) (getMinted : bool)
  (depositEvents withdrawEvents : list Event) :
  exists keep,
    tokenIdsOf address_ false getMinted depositEvents withdrawEvents
    = map tokenOf (filter keep depositEvents).
Proof.
  destruct getMinted.
  - eexists. apply LoopFacts.tokenIdsOf_minted.
  - eexists. apply LoopFacts.tokenIdsOf_owned.
Qed.

End CallFacts.

Import Observations.

(** X1. [getUninitializedAccount] never leaves the machine: besides
    drawing the mnemonic it only derives the seed and the key pair, and it
    never asks the faucet for funds.  With a valid mnemonic it resolves
    with the mnemonic, the authentication key and that same key without
    its prefix as the address key; otherwise it rejects with the
    InvalidMnemonic value. *)
Theorem getUninitializedAccount_is_local (env : Env) (t : Trace) :
  let code := generateMnemonic env t in
  exists outcome made,
    getUninitializedAccount env t = (outcome, t ++ made)
    /\ forallb isLocal made = true
    /\ outcome
       = if validateMnemonic env code then
           let account := derived env code None in
           Resolved
             (JsObject
                [ ("code", JsString code);
                  ("auth_key", HexString_value (authKey env account));
                  ("address key", JsString (noPrefix (authKey env account))) ])
         else Rejected InvalidMnemonic.
Proof.
  intros code.
  unfold getUninitializedAccount, bind at 1, bip39_generateMnemonic, perform.
  fold code. unfold bind. rewrite AsyncFacts.accountOrReject_eq.
  destruct (validateMnemonic env code) eqn:V.
  - rewrite (AsyncFacts.getAccountFromMnemonic_valid _ _ _ _ V).
    eexists. exists [EGenerateMnemonic; EMnemonicToSeed code;
                     EKeyPairFromSeed (firstn 32 (mnemonicToSeedSync env code))].
    unfold resolve. rewrite <- app_assoc. repeat split.
  - rewrite (AsyncFacts.getAccountFromMnemonic_invalid _ _ _ _ V).
    eexists. exists [EGenerateMnemonic]. repeat split.
Qed.

(** X2. When the faucet refuses, [createWallet] and [importWallet] reject
    with the faucet's own reason: the account has been derived and the
    funding request made, but no wallet is returned. *)
Theorem faucet_rejection_propagates (env : Env) (t t1 : Trace)
  (account : AptosAccount) (reason : JsValue) :
  collaborator env t1 (EFundAccount (authKey env account) 10) = Rejected reason ->
  (forall code address_,
      getAccountFromMnemonic env code address_ t = (Resolved account, t1) ->
      importWallet env code address_ t
      = (Rejected reason, t1 ++ [EFundAccount (authKey env account) 10]))
  /\ (getAccountFromMnemonic env (generateMnemonic env t) None
        (t ++ [EGenerateMnemonic]) = (Resolved account, t1) ->
      createWallet env t
      = (Rejected reason, t1 ++ [EFundAccount (authKey env account) 10])).
Proof.
  intros Hf. split.
  - intros code address_ Hacc. unfold importWallet.
    rewrite <- AsyncFacts.accountOrReject_eq in Hacc.
    rewrite (AsyncFacts.bind_resolved _ _ _ _ _ Hacc), CallFacts.bind_call.
    now rewrite Hf.
  - intros Hacc. unfold createWallet, bind at 1, bip39_generateMnemonic, perform.
    rewrite <- AsyncFacts.accountOrReject_eq in Hacc.
    rewrite (AsyncFacts.bind_resolved _ _ _ _ _ Hacc), CallFacts.bind_call.
    now rewrite Hf.
Qed.

Lemma faucet_rejection_propagates_witness :
  let account := derived offlineEnv Fixtures.goodMnemonic None in
  fst (importWallet offlineEnv Fixtures.goodMnemonic None [])
  = Rejected (JsString "faucet unavailable")
  /\ fst (createWallet offlineEnv []) = Rejected (JsString "faucet unavailable").
Proof.
  intros account.
  destruct (faucet_rejection_propagates offlineEnv []
              [EMnemonicToSeed Fixtures.goodMnemonic;
               EKeyPairFromSeed (firstn 32 Fixtures.testSeed)]
              account (JsString "faucet unavailable") eq_refl) as [Hi _].
  destruct (faucet_rejection_propagates offlineEnv []
              [EGenerateMnemonic; EMnemonicToSeed Fixtures.goodMnemonic;
               EKeyPairFromSeed (firstn 32 Fixtures.testSeed)]
              account (JsString "faucet unavailable") eq_refl) as [_ Hc].
  split.
  - now rewrite (Hi Fixtures.goodMnemonic None eq_refl).
  - now rewrite (Hc eq_refl).
Defined.

(** X3. [RestClient.transfer] asks for the transaction in the name of the
    account's address, has that very request signed, submits the signed
    result, and resolves with the hash of the submission.  It stops at the
    first refusal: a request that was not generated is never signed, and
    one that was not signed is never submitted. *)
Theorem RestClient_transfer_in_order (env : Env) (accountFrom : AptosAccount)
  (recipient : string) (amount : Z) (t : Trace) :
  let generate :=
    EGenerateTransaction (address accountFrom) (transferPayload recipient amount) in
  (forall reason,
      collaborator env t generate = Rejected reason ->
      RestClient_transfer env accountFrom recipient amount t
      = (Rejected reason, t ++ [generate]))
  /\ (forall txnRequest,
        collaborator env t generate = Resolved txnRequest ->
        let sign := ESignTransaction accountFrom txnRequest in
        (forall reason,
            collaborator env (t ++ [generate]) sign = Rejected reason ->
            RestClient_transfer env accountFrom recipient amount t
            = (Rejected reason, t ++ [generate; sign]))
        /\ (forall signedTxn,
              collaborator env (t ++ [generate]) sign = Resolved signedTxn ->
              RestClient_transfer env accountFrom recipient amount t
              = (submitTransaction env (t ++ [generate; sign]) accountFrom signedTxn,
                 t ++ [generate; sign; ESubmitTransaction accountFrom signedTxn]))).
Proof.
  intros generate. unfold RestClient_transfer. cbv zeta. fold generate.
  rewrite CallFacts.bind_call. split.
  - intros reason ->. reflexivity.
  - intros txnRequest ->. cbv zeta. rewrite CallFacts.bind_call. split.
    + intros reason ->. now rewrite <- app_assoc.
    + intros signedTxn ->. unfold bind, perform, resolve.
      rewrite <- !app_assoc. cbn [app].
      now destruct (submitTransaction env _ accountFrom signedTxn).
Qed.

Lemma RestClient_transfer_in_order_witness :
  let generate := EGenerateTransaction (new "b0b") (transferPayload "a11ce" 20) in
  RestClient_transfer talkativeEnv Fixtures.bob "a11ce" 20 []
  = (Resolved "0x5ca1ab1e",
     [generate;
      ESignTransaction Fixtures.bob (JsString "request");
      ESubmitTransaction Fixtures.bob (JsString "signed")]).
Proof.
  intros generate.
  destruct (RestClient_transfer_in_order talkativeEnv Fixtures.bob "a11ce" 20 [])
    as [_ H].
  destruct (H (JsString "request") eq_refl) as [_ H'].
  exact (H' (JsString "signed") eq_refl).
Defined.

(** X4. [WalletClient.transfer] waits for exactly the hash that the
    submission returned and settles as that wait does, resolving with
    [undefined]; when the submission fails it rejects with that reason and
    waits for nothing. *)
Theorem transfer_waits_for_submitted_hash (env : Env) (code recipient : string)
  (amount : Z) (sender : option string) (t t1 : Trace) (account : AptosAccount) :
  getAccountFromMnemonic env code sender t = (Resolved account, t1) ->
  (forall txHash t2,
      RestClient_transfer env account recipient amount t1 = (Resolved txHash, t2) ->
      transfer env code recipient amount sender t
      = (match collaborator env t2 (EWaitForTransaction txHash) with
         | Resolved _ => Resolved JsUndefined
         | Rejected reason => Rejected reason
         end,
         t2 ++ [EWaitForTransaction txHash]))
  /\ (forall reason t2,
        RestClient_transfer env account recipient amount t1 = (Rejected reason, t2) ->
        transfer env code recipient amount sender t = (Rejected reason, t2)).
Proof.
  intros Hacc. rewrite <- AsyncFacts.accountOrReject_eq in Hacc. split.
  - intros txHash t2 Hsub. unfold transfer.
    rewrite (AsyncFacts.bind_resolved _ _ _ _ _ Hacc),
      (AsyncFacts.bind_resolved _ _ _ _ _ Hsub).
    unfold bind at 1. rewrite AsyncFacts.catch_rethrow.
    unfold then_, RestClient_waitForTransaction. rewrite CallFacts.bind_call.
    now destruct (collaborator env t2 _).
  - intros reason t2 Hsub. unfold transfer.
    rewrite (AsyncFacts.bind_resolved _ _ _ _ _ Hacc).
    now apply AsyncFacts.bind_rejected.
Qed.

Lemma transfer_waits_for_submitted_hash_witness :
  (exists t2,
     transfer talkativeEnv Fixtures.goodMnemonic "a11ce" 20 None []
     = (Rejected (JsString "still pending"), t2 ++ [EWaitForTransaction "0x5ca1ab1e"]))
  /\ (exists t2,
        transfer offlineEnv Fixtures.goodMnemonic "a11ce" 20 None []
        = (Rejected (JsString "submission refused"), t2)
        /\ forallb (fun e => match e with EWaitForTransaction _ => false | _ => true end)
             t2 = true).
Proof.
  split.
  - destruct (transfer_waits_for_submitted_hash talkativeEnv Fixtures.goodMnemonic
                "a11ce" 20 None [] _ _ eq_refl) as [H _].
    eexists. exact (H _ _ eq_refl).
  - destruct (transfer_waits_for_submitted_hash offlineEnv Fixtures.goodMnemonic
                "a11ce" 20 None [] _ _ eq_refl) as [_ H].
    eexists. split; [exact (H _ _ eq_refl) | reflexivity].
Defined.

(** X5. [cancelNFTOffer] looks the token id up first and cancels the offer
    with the id it was given; when the lookup fails it rejects with that
    reason and cancels nothing. *)
Theorem cancelNFTOffer_looks_up_first (env : Env)
  (code receiver creator_ collection token : string) (address_ : option string)
  (t t1 : Trace) (account : AptosAccount) :
  getAccountFromMnemonic env code address_ t = (Resolved account, t1) ->
  let lookup_ := EGetTokenId creator_ collection token in
  (forall reason,
      collaborator env t1 lookup_ = Rejected reason ->
      cancelNFTOffer env code receiver creator_ collection token address_ t
      = (Rejected reason, t1 ++ [lookup_]))
  /\ (forall token_id,
        collaborator env t1 lookup_ = Resolved token_id ->
        let cancel := ECancelTokenOffer account receiver creator_ token_id in
        cancelNFTOffer env code receiver creator_ collection token address_ t
        = (collaborator env (t1 ++ [lookup_]) cancel, t1 ++ [lookup_; cancel])).
Proof.
  intros Hacc lookup_. rewrite <- AsyncFacts.accountOrReject_eq in Hacc.
  unfold cancelNFTOffer. rewrite (AsyncFacts.bind_resolved _ _ _ _ _ Hacc).
  fold lookup_. rewrite CallFacts.bind_call. split.
  - intros reason ->. reflexivity.
  - intros token_id ->. cbv zeta. rewrite CallFacts.call_eq.
    now rewrite <- app_assoc.
Qed.

Lemma cancelNFTOffer_looks_up_first_witness :
  let account := derived talkativeEnv Fixtures.goodMnemonic None in
  cancelNFTOffer offlineEnv Fixtures.goodMnemonic "b0b" "a11ce" "AliceCollection"
    "AliceToken" None []
  = (Rejected (JsString "no such token"),
     [EMnemonicToSeed Fixtures.goodMnemonic;
      EKeyPairFromSeed (firstn 32 Fixtures.testSeed);
      EGetTokenId "a11ce" "AliceCollection" "AliceToken"])
  /\ snd (cancelNFTOffer talkativeEnv Fixtures.goodMnemonic "b0b" "a11ce"
            "AliceCollection" "AliceToken" None [])
     = [EMnemonicToSeed Fixtures.goodMnemonic;
        EKeyPairFromSeed (firstn 32 Fixtures.testSeed);
        EGetTokenId "a11ce" "AliceCollection" "AliceToken";
        ECancelTokenOffer account "b0b" "a11ce" (JsNumber 7)].
Proof.
  intros account. split.
  - destruct (cancelNFTOffer_looks_up_first offlineEnv Fixtures.goodMnemonic "b0b"
                "a11ce" "AliceCollection" "AliceToken" None [] _ _ eq_refl)
      as [H _].
    exact (H _ eq_refl).
  - destruct (cancelNFTOffer_looks_up_first talkativeEnv Fixtures.goodMnemonic "b0b"
                "a11ce" "AliceCollection" "AliceToken" None [] _ _ eq_refl)
      as [_ H].
    now rewrite (H _ eq_refl).
Defined.

(** X6. A failed request for events is passed on with its reason.  When
    the deposit request fails, [getTokenIds] never asks for the
    withdrawals; when the withdrawal request fails, no token list is
    computed from the deposits alone. *)
Theorem event_request_failure_propagates (env : Env) (address_ : string)
  (getAll getMinted : bool) (t : Trace) :
  let depositsUrl :=
    eventsUrl env address_ "0x1::Token::TokenStore" "deposit_events" in
  let withdrawalsUrl :=
    eventsUrl env address_ "0x1::Token::TokenStore" "withdraw_events" in
  (forall handle field reason,
      fetch env t (eventsUrl env address_ handle field) = Rejected reason ->
      getEventStream env address_ handle field t
      = (Rejected reason, t ++ [EFetch (eventsUrl env address_ handle field)]))
  /\ (forall reason,
        fetch env t depositsUrl = Rejected reason ->
        getTokenIds env address_ getAll getMinted t
        = (Rejected reason, t ++ [EFetch depositsUrl]))
  /\ (forall depositEvents t1 reason,
        getEventStream env address_ "0x1::Token::TokenStore" "deposit_events" t
        = (Resolved depositEvents, t1) ->
        fetch env t1 withdrawalsUrl = Rejected reason ->
        getTokenIds env address_ getAll getMinted t
        = (Rejected reason, t1 ++ [EFetch withdrawalsUrl])).
Proof.
  intros depositsUrl withdrawalsUrl.
  assert (failing : forall handle field reason u,
             fetch env u (eventsUrl env address_ handle field) = Rejected reason ->
             getEventStream env address_ handle field u
             = (Rejected reason, u ++ [EFetch (eventsUrl env address_ handle field)])).
  { intros handle field reason u Hf.
    rewrite AsyncFacts.getEventStream_eq. cbv zeta. now rewrite Hf. }
  split; [|split].
  - intros handle field reason. apply failing.
  - intros reason Hf. unfold getTokenIds.
    apply AsyncFacts.bind_rejected. now apply failing.
  - intros depositEvents t1 reason Hd Hf. unfold getTokenIds.
    rewrite (AsyncFacts.bind_resolved _ _ _ _ _ Hd).
    apply AsyncFacts.bind_rejected. now apply failing.
Qed.

Lemma event_request_failure_propagates_witness :
  getTokenIds offlineEnv "b0b" false false []
  = (Rejected (JsString "request failed"),
     [EFetch "https://node/accounts/b0b/events/0x1::Token::TokenStore/deposit_events"]).
Proof.
  destruct (event_request_failure_propagates offlineEnv "b0b" false false [])
    as (_ & H & _).
  exact (H _ eq_refl).
Defined.

(** X7. Whatever the streams, the owned list and the minted list are taken
    out of the list of all deposits: each of their entries is an entry of
    that list, and no token is listed more often than it was deposited. *)
Theorem filtered_tokens_within_all (address_ : string) (getMinted getMinted' : bool)
  (depositEvents withdrawEvents : list Event) :
  let all := tokenIdsOf address_ true getMinted' depositEvents withdrawEvents in
  let part := tokenIdsOf address_ false getMinted depositEvents withdrawEvents in
  incl part all
  /\ length part <= length all
  /\ forall token,
       count_occ LoopFacts.TokenId_eq_dec part token
       <= count_occ LoopFacts.TokenId_eq_dec all token.
Proof.
  intros all part. subst all part.
  rewrite LoopFacts.tokenIdsOf_all.
  destruct (CallFacts.tokenIdsOf_filtered address_ getMinted depositEvents
              withdrawEvents) as [keep ->].
  split; [apply CallFacts.incl_map_filter|]. split.
  - rewrite !length_map. apply filter_length_le.
  - intros token. apply CallFacts.count_occ_filter_le.
Qed.

(** ** Reading resources *)

Module ReadFacts.

Import Hex Async Wallet Tokens.

Section WithNode.

Variable node : Node.
Variable number : Type.
Variable parseInt : JsValue -> number.

Lemma balanceIn_none (resources : list AccountResource) :
  balanceIn number parseInt resources = Resolved None
  <-> forall r, In r resources -> type r <> "0x1::TestCoin::Balance".
Proof.
  induction resources as [|r rest IH]; cbn [balanceIn].
  - split; [intros _ r [] | reflexivity].
  - destruct (String.eqb_spec (type r) "0x1::TestCoin::Balance") as [E|N].
    + split.
      * destruct (member (data r) "coin") as [coin|]; [|discriminate].
        destruct (member coin "value"); discriminate.
      * intros H. exfalso. exact (H r (or_introl eq_refl) E).
    + rewrite IH. split.
      * intros H x [<-|Hin]; auto.
      * intros H x Hin. apply H. now right.
Qed.

Lemma balanceIn_first (before after : list AccountResource) (r : AccountResource) :
  (forall p, In p before -> type p <> "0x1::TestCoin::Balance") ->
  type r = "0x1::TestCoin::Balance" ->
  balanceIn number parseInt (before ++ r :: after)
  = match member (data r) "coin" with
    | Rejected reason => Rejected reason
    | Resolved coin =>
        match member coin "value" with
        | Rejected reason => Rejected reason
        | Resolved value => Resolved (Some (parseInt value))
        end
    end.
Proof.
  intros Hb Hr. induction before as [|p before IH]; cbn [app balanceIn].
  - now rewrite Hr.
  - destruct (String.eqb_spec (type p) "0x1::TestCoin::Balance") as [E|_].
    + exfalso. exact (Hb p (or_introl eq_refl) E).
    + apply IH. intros q Hq. apply Hb. now right.
Qed.



Lemma andThen_assoc {A B C : Type} (m : Task A) (k : A -> Task B) (h : B -> Task C)
  (w : World) :
  andThen (andThen m k) h w = andThen m (fun a => andThen (k a) h) w.
Proof. unfold andThen. destruct (m w) as [[a|r] w']; reflexivity. Qed.

Lemma andThen_ext {A B : Type} (m : Task A) (k k' : A -> Task B) (w : World) :
  (forall a w', k a w' = k' a w') -> andThen m k w = andThen m k' w.
Proof.
  intros H. unfold andThen. destruct (m w) as [[a|r] w']; [apply H | reflexivity].
Qed.

Lemma tokensLoop_mapTask (tokenIds : list TokenId) :
  forall (tokens : list JsValue) (w : World),
    tokensLoop node tokenIds tokens w
    = andThen (mapTask (getToken node) tokenIds)
        (fun fetched => done (tokens ++ fetched)) w.
Proof.
  induction tokenIds as [|tokenId rest IH]; intros tokens w.
  - cbn. unfold andThen, done. now rewrite app_nil_r.
  - cbn [tokensLoop mapTask]. unfold getToken.
    rewrite !andThen_assoc. apply andThen_ext. intros resources w1.
    rewrite !andThen_assoc. apply andThen_ext. intros handle w2.
    rewrite !andThen_assoc. apply andThen_ext. intros token w3.
    rewrite IH. unfold done at 2. unfold andThen at 2.
    rewrite andThen_assoc. apply andThen_ext. intros fetched w4.
    unfold andThen, done, push. now rewrite <- app_assoc.
Qed.

Lemma getToken_shape (tokenId : TokenId) (w : World) :
  forall token w',
    getToken node tokenId w = (Resolved token, w') ->
    effects w' = effects w /\ length (calls w') = length (calls w) + 2.
Proof.
  intros token w'. unfold getToken, andThen, getAccountResources, tableItem,
    settle, done.
  destruct (resourcesAnswer node w _) as [resources|]; [|discriminate].
  destruct (tokenDataHandle _) as [handle|]; [|discriminate].
  destruct (tableItemAnswer node _ _ _ _ _); [|discriminate].
  intros [= _ <-]. cbn. split; [reflexivity|].
  rewrite !length_app. cbn. lia.
Qed.

Lemma mapTask_getToken_shape (tokenIds : list TokenId) :
  forall (w : World) tokens w',
    mapTask (getToken node) tokenIds w = (Resolved tokens, w') ->
    length tokens = length tokenIds
    /\ effects w' = effects w
    /\ length (calls w') = length (calls w) + 2 * length tokenIds.
Proof.
  induction tokenIds as [|tokenId rest IH]; intros w tokens w'.
  - cbn. unfold done. intros [= <- <-]. cbn. repeat split; lia.
  - cbn [mapTask]. unfold andThen at 1.
    destruct (getToken node tokenId w) as [[token|] w1] eqn:E1; [|discriminate].
    unfold andThen at 1.
    destruct (mapTask (getToken node) rest w1) as [[others|] w2] eqn:E2;
      [|discriminate].
    unfold done. intros [= <- <-].
    destruct (getToken_shape _ _ _ _ E1) as [He1 Hc1].
    destruct (IH _ _ _ E2) as (Hl & He2 & Hc2).
    cbn [length]. repeat split; [lia | congruence | lia].
Qed.

Lemma token_list_shape (env : Env) (address_ : string) (getAll getMinted : bool)
  (w w' : World) (tokens : list JsValue) :
  andThen (liftAsync (getTokenIds env address_ getAll getMinted))
    (fun tokenIds => tokensLoop node tokenIds []) w = (Resolved tokens, w') ->
  exists tokenIds,
    getTokenIds env address_ getAll getMinted (effects w)
    = (Resolved tokenIds, effects w')
    /\ length tokens = length tokenIds
    /\ length (calls w') = length (calls w) + 2 * length tokenIds.
Proof.
  unfold andThen at 1, liftAsync.
  destruct (getTokenIds env address_ getAll getMinted (effects w))
    as [[tokenIds|] t1]; [|discriminate].
  rewrite tokensLoop_mapTask. unfold andThen, done. cbn [app].
  destruct (mapTask (getToken node) tokenIds _) as [[ts|] w2] eqn:E;
    [|discriminate].
  intros [= <- <-]. exists tokenIds.
  destruct (mapTask_getToken_shape tokenIds _ _ _ E) as (Hl & He & Hc).
  cbn [effects calls] in He, Hc. rewrite He. repeat split; assumption.
Qed.

End WithNode.

End ReadFacts.

Import Tokens.

(** X8. [accountBalance] resolves with [null] exactly when no resource of
    the account has the type of the test coin balance.  Otherwise the first
    such resource decides alone: the balance is [parseInt] of its coin
    value, and later balance resources are ignored.  [getBalance] settles
    as [accountBalance] does. *)
Theorem accountBalance_first_balance_resource (node : Node) (number : Type)
  (parseInt : JsValue -> number) (accountAddress : string) (w : World)
  (resources : list AccountResource) :
  resourcesAnswer node w accountAddress = Resolved resources ->
  (fst (accountBalance node number parseInt accountAddress w) = Resolved None
   <-> forall r, In r resources -> type r <> "0x1::TestCoin::Balance")
  /\ (forall before r after coin value,
        resources = before ++ r :: after ->
        (forall p, In p before -> type p <> "0x1::TestCoin::Balance") ->
        type r = "0x1::TestCoin::Balance" ->
        member (data r) "coin" = Resolved coin ->
        member coin "value" = Resolved value ->
        fst (accountBalance node number parseInt accountAddress w)
        = Resolved (Some (parseInt value)))
  /\ getBalance node number parseInt accountAddress w
     = accountBalance node number parseInt accountAddress w.
Proof.
  intros Hr.
  assert (run : fst (accountBalance node number parseInt accountAddress w)
                = balanceIn number parseInt resources).
  { unfold accountBalance, andThen, getAccountResources, settle. now rewrite Hr. }
  split; [|split].
  - rewrite run. apply ReadFacts.balanceIn_none.
  - intros before r after coin value -> Hb Ht Hc Hv.
    rewrite run, (ReadFacts.balanceIn_first number parseInt before after r Hb Ht).
    now rewrite Hc, Hv.
  - unfold getBalance, andThen, done.
    now destruct (accountBalance node number parseInt accountAddress w) as [[b|r] w'].
Qed.

Lemma accountBalance_first_balance_resource_witness :
  fst (accountBalance ReadFixtures.testNode JsValue (fun v => v) "0xa11ce"
         ReadFixtures.start)
  = Resolved (Some (JsString "42"))
  /\ fst (accountBalance ReadFixtures.testNode JsValue (fun v => v) "0xb0b"
            ReadFixtures.start)
     = Resolved None.
Proof.
  split.
  - destruct (accountBalance_first_balance_resource ReadFixtures.testNode JsValue
                (fun v => v) "0xa11ce" ReadFixtures.start _ eq_refl) as (_ & H & _).
    apply (H [] (ReadFixtures.balanceOf "42")
             [ReadFixtures.collectionsAt "77"; ReadFixtures.balanceOf "1"]
             (JsObject [ ("value", JsString "42") ]) (JsString "42"));
      try reflexivity.
    intros p [].
  - destruct (accountBalance_first_balance_resource ReadFixtures.testNode JsValue
                (fun v => v) "0xb0b" ReadFixtures.start _ eq_refl) as (H & _).
    apply H. intros r [<-|[]]. discriminate.
Defined.



(** X10. [getOwnedTokens], [getCreatedTokens] and [getTokens] resolve with
    what [getToken] resolves with for each token id of the corresponding
    [getTokenIds] query, one after the other in the order of the ids. *)
Theorem token_lists_query_each_token (node : Node) (env : Env) (address_ : string)
  (w : World) :
  getOwnedTokens env node address_ w
  = andThen (liftAsync (getTokenIds env address_ false false))
      (mapTask (getToken node)) w
  /\ getCreatedTokens env node address_ w
     = andThen (liftAsync (getTokenIds env address_ false true))
         (mapTask (getToken node)) w
  /\ getTokens env node address_ w
     = andThen (liftAsync (getTokenIds env address_ true false))
         (mapTask (getToken node)) w.
Proof.
  assert (loop : forall tokenIds w1,
             tokensLoop node tokenIds [] w1 = mapTask (getToken node) tokenIds w1).
  { intros tokenIds w1. rewrite ReadFacts.tokensLoop_mapTask.
    unfold andThen, done. cbn [app].
    now destruct (mapTask (getToken node) tokenIds w1) as [[ts|r] w2]. }
  repeat split;
    unfold getOwnedTokens, getCreatedTokens, getTokens;
    apply ReadFacts.andThen_ext; exact loop.
Qed.

(** X11. When [getOwnedTokens], [getCreatedTokens] or [getTokens]
    resolves, it holds one token per token id of its [getTokenIds] query,
    and two reads were made for every id: the creator's resources and the
    table item.  The only event requests are those of [getTokenIds]. *)
Theorem token_lists_two_reads_per_token (node : Node) (env : Env) (address_ : string)
  (w w' : World) (tokens : list JsValue) :
  let listed (getAll getMinted : bool) :=
    exists tokenIds,
      getTokenIds env address_ getAll getMinted (effects w)
      = (Resolved tokenIds, effects w')
      /\ length tokens = length tokenIds
      /\ length (calls w') = length (calls w) + 2 * length tokenIds in
  (getOwnedTokens env node address_ w = (Resolved tokens, w') -> listed false false)
  /\ (getCreatedTokens env node address_ w = (Resolved tokens, w') -> listed false true)
  /\ (getTokens env node address_ w = (Resolved tokens, w') -> listed true false).
Proof.
  intros listed.
  repeat split; intros H; eapply ReadFacts.token_list_shape; exact H.
Qed.

Lemma token_lists_two_reads_per_token_witness :
  let env := Fixtures.testEnv "b0b" Fixtures.depositsABC Fixtures.withdrawalsB in
  exists tokens w',
    getOwnedTokens env ReadFixtures.testNode "b0b" ReadFixtures.start
    = (Resolved tokens, w')
    /\ length tokens = 2
    /\ length (calls w') = 4.
Proof.
  intros env.
  destruct (getOwnedTokens env ReadFixtures.testNode "b0b" ReadFixtures.start)
    as [o w'] eqn:E.
  destruct o as [tokens|r]; [|vm_compute in E; discriminate E].
  exists tokens, w'. split; [reflexivity|].
  destruct (proj1 (token_lists_two_reads_per_token ReadFixtures.testNode env "b0b"
                     ReadFixtures.start w' tokens) E)
    as (tokenIds & Hids & Hl & Hc).
  vm_compute in Hids. injection Hids as <- _.
  split; [exact Hl | exact Hc].
Defined.

(** X12. A token list fails as a whole: when reading one token fails, the
    loop rejects with that reason at once; the tokens read before it are
    dropped and the ids after it are not read. *)
Theorem token_list_fails_as_a_whole (node : Node)
  (before after : list TokenId) (bad : TokenId) (w w1 w2 : World)
  (fetched : list JsValue) (reason : JsValue) :
  tokensLoop node before [] w = (Resolved fetched, w1) ->
  getToken node bad w1 = (Rejected reason, w2) ->
  tokensLoop node (before ++ bad :: after) [] w = (Rejected reason, w2).
Proof.
  rewrite !ReadFacts.tokensLoop_mapTask. cbn [app].
  intros Hb Hbad.
  assert (Hb' : exists ts, mapTask (getToken node) before w = (Resolved ts, w1)).
  { unfold andThen, done in Hb.
    destruct (mapTask (getToken node) before w) as [[ts|r] w']; [|discriminate].
    injection Hb as _ <-. now exists ts. }
  destruct Hb' as [ts Hts]. clear Hb.
  assert (stop : forall ids u us,
             mapTask (getToken node) ids u = (Resolved us, w1) ->
             mapTask (getToken node) (ids ++ bad :: after) u = (Rejected reason, w2)).
  { induction ids as [|i ids IH]; intros u us.
    - cbn [mapTask app]. unfold done at 1. intros [= _ ->].
      unfold andThen at 1. now rewrite Hbad.
    - cbn [mapTask app]. unfold andThen at 1 3.
      destruct (getToken node i u) as [[token|r] u1]; [|discriminate].
      unfold andThen at 1 2.
      destruct (mapTask (getToken node) ids u1) as [[rest|r] u2] eqn:E;
        [|discriminate].
      unfold done. intros [= _ ->]. now rewrite (IH _ _ E). }
  unfold andThen. now rewrite (stop _ _ _ Hts).
Qed.

Lemma token_list_fails_as_a_whole_witness :
  tokensLoop ReadFixtures.testNode [Fixtures.tokenA; Fixtures.tokenB; Fixtures.tokenC]
    [] ReadFixtures.start
  = (Rejected TypeError,
     mkWorld []
       [CGetAccountResources "0xa11ce";
        CTableItem (JsString "77") "0x1::Token::TokenId" "0x1::Token::TokenData"
          (TokenId_value Fixtures.tokenA);
        CGetAccountResources "0xb0b"]).
Proof.
  apply (token_list_fails_as_a_whole ReadFixtures.testNode [Fixtures.tokenA]
           [Fixtures.tokenC] Fixtures.tokenB ReadFixtures.start
           (mkWorld []
              [CGetAccountResources "0xa11ce";
               CTableItem (JsString "77") "0x1::Token::TokenId"
                 "0x1::Token::TokenData" (TokenId_value Fixtures.tokenA)])
           _
           [JsObject [ ("handle", JsString "77");
                       ("key", TokenId_value Fixtures.tokenA) ]]
           TypeError);
    reflexivity.
Defined.

(** ** The fetch adapter *)

Import FetchAdapter.

(** X13. [createRequest] sends the method in upper case and attaches the
    configured data as body exactly when that upper-case method is neither
    GET nor HEAD. *)
Theorem createRequest_body_rule (P : Platform) (config : Config P) :
  let options := request_options P (createRequest P config) in
  o_method P options = toUpperCase (method P config)
  /\ (o_body P options = None
      <-> toUpperCase (method P config) = "GET"
          \/ toUpperCase (method P config) = "HEAD")
  /\ (forall body, o_body P options = Some body -> body = data P config).
Proof.
  cbn. split; [reflexivity|]. split.
  - destruct (String.eqb_spec (toUpperCase (method P config)) "GET") as [G|G];
      destruct (String.eqb_spec (toUpperCase (method P config)) "HEAD") as [H|H];
      cbn; split; auto; try discriminate.
    intros [E|E]; contradiction.
  - destruct (negb _ && negb _); [|discriminate]. now intros body [= <-].
Qed.

Lemma createRequest_body_rule_witness :
  let P := AdapterFixtures.testPlatform in
  o_body P (request_options P (createRequest P (AdapterFixtures.testConfig "get" None)))
  = None
  /\ forall body,
       o_body P
         (request_options P (createRequest P (AdapterFixtures.testConfig "post" None)))
       = Some body ->
       body = JsString "payload".
Proof.
  intros P. split.
  - apply (proj1 (proj2 (createRequest_body_rule P
                           (AdapterFixtures.testConfig "get" None)))).
    left. reflexivity.
  - exact (proj2 (proj2 (createRequest_body_rule P
                           (AdapterFixtures.testConfig "post" None)))).
Defined.

(** X14. [createRequest] never passes a configured redirect on as the
    request's redirect option.  A truthy redirect is stored as the
    integrity option, in place of any configured integrity; without one
    the integrity option is the configured integrity when that is truthy,
    and absent otherwise. *)
Theorem createRequest_redirect_and_integrity (P : Platform) (config : Config P) :
  let options := request_options P (createRequest P config) in
  o_redirect P options = None
  /\ (truthy (redirect P config) = true ->
        o_integrity P options = Some (redirect P config))
  /\ (truthy (redirect P config) = false ->
        (truthy (integrity P config) = true ->
           o_integrity P options = Some (integrity P config))
        /\ (truthy (integrity P config) = false -> o_integrity P options = None)).
Proof.
  cbn. split; [reflexivity|]. split.
  - now intros ->.
  - intros ->. unfold whenTruthy. split; now intros ->.
Qed.

Lemma createRequest_redirect_and_integrity_witness :
  let options :=
    request_options AdapterFixtures.testPlatform
      (createRequest AdapterFixtures.testPlatform
         (AdapterFixtures.testConfig "post" None)) in
  o_redirect _ options = None
  /\ o_integrity _ options = Some (JsString "follow").
Proof.
  intros options.
  destruct (createRequest_redirect_and_integrity AdapterFixtures.testPlatform
              (AdapterFixtures.testConfig "post" None)) as (Hr & Hi & _).
  split; [exact Hr | exact (Hi eq_refl)].
Defined.

(** X15. [getResponse] rejects only when reading the body fails.  A fetch
    that fails resolves with the Network Error value; a response with a
    status below 200, or 204, resolves without data, whatever the body
    readers would do; any other response resolves with the data of the
    reader the response type selects, or rejects with that reader's
    reason. *)
Theorem getResponse_settles (P : Platform) (axios : Axios P) (request : Request P)
  (config : Config P) (fetched : Async.Outcome (StageOne P)) :
  (forall reason,
      fetched = Async.Rejected reason ->
      getResponse P axios request config fetched
      = Async.Resolved
          (inl (createError P axios (JsString "Network Error") config None request)))
  /\ (forall stageOne,
        fetched = Async.Resolved stageOne ->
        (status P stageOne < 200 \/ status P stageOne = 204)%Z ->
        exists response,
          getResponse P axios request config fetched = Async.Resolved (inr response)
          /\ r_data P response = None
          /\ r_status P response = status P stageOne)
  /\ (forall stageOne,
        fetched = Async.Resolved stageOne ->
        (200 <= status P stageOne)%Z -> status P stageOne <> 204%Z ->
        match reader P config stageOne with
        | Async.Resolved d =>
            exists response,
              getResponse P axios request config fetched
              = Async.Resolved (inr response)
              /\ r_data P response = Some d
              /\ r_status P response = status P stageOne
        | Async.Rejected reason =>
            getResponse P axios request config fetched = Async.Rejected reason
        end)
  /\ (forall reason,
        getResponse P axios request config fetched = Async.Rejected reason ->
        exists stageOne,
          fetched = Async.Resolved stageOne
          /\ reader P config stageOne = Async.Rejected reason).
Proof.
  split; [|split; [|split]].
  - intros reason ->. reflexivity.
  - intros stageOne -> Hs. unfold getResponse.
    replace ((200 <=? status P stageOne) && negb (status P stageOne =? 204))%Z
      with false.
    + eexists. repeat split.
    + symmetry. destruct Hs as [Hs| ->]; [|reflexivity].
      apply andb_false_iff. left. now apply Z.leb_gt.
  - intros stageOne -> H200 H204. unfold getResponse.
    replace ((200 <=? status P stageOne) && negb (status P stageOne =? 204))%Z
      with true.
    + destruct (reader P config stageOne); [|reflexivity].
      eexists. repeat split.
    + symmetry. apply andb_true_iff. split; [now apply Z.leb_le|].
      apply negb_true_iff. now apply Z.eqb_neq.
  - intros reason. unfold getResponse.
    destruct fetched as [stageOne|]; [|discriminate].
    destruct (_ && _); [|discriminate].
    destruct (reader P config stageOne) eqn:E; [discriminate|].
    intros [= <-]. now exists stageOne.
Qed.

Lemma getResponse_settles_witness :
  let P := AdapterFixtures.testPlatform in
  let config := AdapterFixtures.testConfig "get" None in
  let request := createRequest P config in
  getResponse P AdapterFixtures.testAxios request config
    (Async.Rejected (JsString "ECONNREFUSED"))
  = Async.Resolved
      (inl (JsObject [ ("message", JsString "Network Error");
                       ("code", JsUndefined) ]))
  /\ (exists response,
        getResponse P AdapterFixtures.testAxios request config
          (Async.Resolved (AdapterFixtures.answered 204))
        = Async.Resolved (inr response)
        /\ r_data P response = None
        /\ r_status P response = 204%Z)
  /\ (exists response,
        getResponse P AdapterFixtures.testAxios request config
          (Async.Resolved (AdapterFixtures.answered 200))
        = Async.Resolved (inr response)
        /\ r_data P response = Some (JsString "parsed")
        /\ r_status P response = 200%Z).
Proof.
  intros P config request. split; [|split].
  - apply (proj1 (getResponse_settles P AdapterFixtures.testAxios request config
                    (Async.Rejected (JsString "ECONNREFUSED")))
             (JsString "ECONNREFUSED") eq_refl).
  - apply (proj1 (proj2 (getResponse_settles P AdapterFixtures.testAxios request
                           config (Async.Resolved (AdapterFixtures.answered 204))))
             (AdapterFixtures.answered 204) eq_refl).
    right. reflexivity.
  - apply (proj1 (proj2 (proj2 (getResponse_settles P AdapterFixtures.testAxios
                                  request config
                                  (Async.Resolved (AdapterFixtures.answered 200)))))
             (AdapterFixtures.answered 200) eq_refl).
    + cbn. lia.
    + cbn. lia.
Defined.

(** X16. A fetch that fails makes [fetchAdapter] reject: with the Network
    Error value, or with the timeout error when the timer fired first.  No
    settle function, configured or default, is consulted. *)
Theorem fetchAdapter_rejects_failed_fetch (P : Platform) (axios : Axios P)
  (config : Config P) (reason : JsValue) (timerFirst : bool) :
  let request := createRequest P config in
  fetchAdapter P axios config (Async.Rejected reason) timerFirst
  = Async.Rejected
      (if timerArmed P config && timerFirst
       then createError P axios (timeoutMessage P config) config
              (Some "ECONNABORTED") request
       else createError P axios (JsString "Network Error") config None request).
Proof.
  cbv zeta. unfold fetchAdapter.
  now destruct (timerArmed P config && timerFirst).
Qed.



(** ** Delegation to the token client *)

(** X18. With a valid mnemonic, [createNFTCollection], [createNFT],
    [offerNFT], [claimNFT] and [signGenericTransaction] each make exactly
    one call after deriving the account, in the name of the account derived
    from the mnemonic and the given address, with their arguments
    unchanged, and settle as that call does. *)
Theorem nft_methods_delegate_once (env : Env) (code : string)
  (address_ : option string) (t : Trace) :
  validateMnemonic env code = true ->
  let account := derived env code address_ in
  let t1 :=
    t ++ [EMnemonicToSeed code;
          EKeyPairFromSeed (firstn 32 (mnemonicToSeedSync env code))] in
  let delegated (run : Async JsValue) (e : Effect) :=
    run t = (collaborator env t1 e, t1 ++ [e]) in
  (forall name description uri,
      delegated (createNFTCollection env code name description uri address_)
        (ECreateCollection account name description uri))
  /\ (forall collection name description supply uri,
        delegated (createNFT env code collection name description supply uri address_)
          (ECreateToken account collection name description supply uri))
  /\ (forall receiver creator_ collection token amount,
        delegated (offerNFT env code receiver creator_ collection token amount address_)
          (EOfferToken account receiver creator_ collection token amount))
  /\ (forall sender creator_ collection token,
        delegated (claimNFT env code sender creator_ collection token address_)
          (EClaimToken account sender creator_ collection token))
  /\ (forall func args,
        delegated (signGenericTransaction env code func address_ args)
          (ESubmitTransactionHelper account
             (JsObject
                [ ("type", JsString "script_function_payload");
                  ("function", JsString func);
                  ("type_arguments", JsArray []);
                  ("arguments", JsArray (map JsString args)) ]))).
Proof.
  intros V account t1 delegated.
  assert (Hacc : accountOrReject env code address_ t = (Resolved account, t1)).
  { rewrite AsyncFacts.accountOrReject_eq.
    now apply AsyncFacts.getAccountFromMnemonic_valid. }
  repeat split; intros; unfold delegated;
    (unfold createNFTCollection, createNFT, offerNFT, claimNFT,
       signGenericTransaction);
    now rewrite (AsyncFacts.bind_resolved _ _ _ _ _ Hacc).
Qed.

Lemma nft_methods_delegate_once_witness :
  let account := derived talkativeEnv Fixtures.goodMnemonic (Some "0xa11ce") in
  accountAddress account = new "0xa11ce"
  /\ offerNFT talkativeEnv Fixtures.goodMnemonic "b0b" "a11ce" "AliceCollection"
       "AliceToken" 1 (Some "0xa11ce") []
     = (Resolved JsUndefined,
        [EMnemonicToSeed Fixtures.goodMnemonic;
         EKeyPairFromSeed (firstn 32 Fixtures.testSeed);
         EOfferToken account "b0b" "a11ce" "AliceCollection" "AliceToken" 1]).
Proof.
  intros account. split; [reflexivity|].
  destruct (nft_methods_delegate_once talkativeEnv Fixtures.goodMnemonic
              (Some "0xa11ce") [] eq_refl) as (_ & _ & H & _).
  exact (H "b0b" "a11ce" "AliceCollection" "AliceToken" 1%Z).
Defined.

(** ** The two forms of a hex string *)

Module FormFacts.

Import Hex.

Lemma prefixed_text (text : string) :
  startsWith text "0x" = true -> text = ("0x" ++ slice 2 text)%string.
Proof.
  destruct text as [|c1 [|c2 rest]]; cbn; try discriminate.
  - rewrite andb_false_r. discriminate.
  - intros H. apply andb_prop in H as [H1 H2]. apply andb_prop in H2 as [H2 _].
    apply Ascii.eqb_eq in H1, H2. now subst.
Qed.

Lemma dropZeros_idem (s : string) : dropZeros (dropZeros s) = dropZeros s.
Proof.
  induction s as [|c s IH]; [reflexivity|].
  cbn [dropZeros].
  destruct c as [[] [] [] [] [] [] [] []]; try reflexivity. exact IH.
Qed.

Lemma dropZeros_no_zero (s : string) : startsWith (dropZeros s) "0" = false.
Proof.
  induction s as [|c s IH]; [reflexivity|].
  cbn [dropZeros].
  destruct c as [[] [] [] [] [] [] [] []]; try reflexivity. exact IH.
Qed.

Lemma dropZeros_none (s : string) : startsWith s "0" = false -> dropZeros s = s.
Proof.
  destruct s as [|c s]; [reflexivity|].
  destruct c as [[] [] [] [] [] [] [] []]; try reflexivity. discriminate.
Qed.

Lemma hex_noPrefix (text : string) :
  hex (new text) = ("0x" ++ noPrefix (new text))%string.
Proof.
  unfold new, hex, noPrefix.
  destruct (startsWith text "0x") eqn:E; cbn [hexString]; [|reflexivity].
  now apply prefixed_text.
Qed.

Lemma short_of_short (digits : string) :
  toShortString (new ("0x" ++ dropZeros digits)%string)
  = ("0x" ++ dropZeros digits)%string.
Proof.
  unfold toShortString, noPrefix, new. cbn [String.append startsWith].
  rewrite !Ascii.eqb_refl. cbn [andb hexString slice].
  now rewrite dropZeros_idem.
Qed.

End FormFacts.

Import Hex.

(** X19. A hex string may be given with or without its prefix: both forms
    build the same [HexString], whose [hex()] is always the prefix followed
    by its [noPrefix()], and wrapping the rendered text again changes
    nothing. *)
Theorem HexString_accepts_either_form (text : string) :
  startsWith (hex (new text)) "0x" = true
  /\ hex (new text) = ("0x" ++ noPrefix (new text))%string
  /\ ensure (hex (new text)) = new text
  /\ (startsWith text "0x" = false ->
        new ("0x" ++ text)%string = new text /\ noPrefix (new text) = text).
Proof.
  unfold ensure, new, hex, noPrefix.
  destruct (startsWith text "0x") eqn:E; cbn [hexString].
  - rewrite E. repeat split; try discriminate.
    now apply FormFacts.prefixed_text.
  - repeat split.
Qed.

Lemma HexString_accepts_either_form_witness :
  new "0x007711b4d0" = new "007711b4d0" /\ noPrefix (new "007711b4d0") = "007711b4d0".
Proof.
  apply (proj2 (proj2 (proj2 (HexString_accepts_either_form "007711b4d0")))).
  reflexivity.
Defined.

(** X20. The short form of a hex string is the prefix followed by the
    digits without their leading zeros: it never shows a zero right after
    the prefix, it is its own short form, and a string without leading
    zeros is rendered as it is. *)
Theorem toShortString_drops_leading_zeros (text : string) :
  exists digits,
    toShortString (new text) = ("0x" ++ digits)%string
    /\ startsWith digits "0" = false
    /\ toShortString (new (toShortString (new text))) = toShortString (new text)
    /\ (startsWith (noPrefix (new text)) "0" = false ->
          toShortString (new text) = hex (new text)).
Proof.
  exists (dropZeros (noPrefix (new text))).
  split; [reflexivity|]. split; [apply FormFacts.dropZeros_no_zero|]. split.
  - unfold toShortString at 2 3. apply FormFacts.short_of_short.
  - intros H. unfold toShortString. rewrite (FormFacts.dropZeros_none _ H).
    symmetry. apply FormFacts.hex_noPrefix.
Qed.

Lemma toShortString_drops_leading_zeros_witness :
  exists digits,
    toShortString (new "007711b4d0") = ("0x" ++ digits)%string
    /\ startsWith digits "0" = false
    /\ toShortString
         (new "0x2185b82cef9bc46249ff2dbc56c265f6a0e3bdb7b9498cc45e4f6e429530fdc0")
       = "0x2185b82cef9bc46249ff2dbc56c265f6a0e3bdb7b9498cc45e4f6e429530fdc0".
Proof.
  destruct (toShortString_drops_leading_zeros "007711b4d0")
    as (digits & Hshort & Hzero & _).
  exists digits. split; [exact Hshort|]. split; [exact Hzero|].
  destruct (toShortString_drops_leading_zeros
              "0x2185b82cef9bc46249ff2dbc56c265f6a0e3bdb7b9498cc45e4f6e429530fdc0")
    as (_ & _ & _ & _ & Hsame).
  apply Hsame. reflexivity.
Defined.
